(** * Dockerfile.py: generation and building of the pi-hole Dockerfiles

    A shallow embedding of [Dockerfile.py].  The script renders one template
    per selected record of a static table and then runs the container tool
    once or twice per selected (OS, architecture) pair.  Its effects (files
    written, console output, processes started, uncaught exceptions) are
    modelled by a state-and-error monad; the external libraries and the
    environment (jinja2, docopt's printing of the argument dictionary, the
    file system, the container tool) are parameters.

    The script runs in a [world], where every program is found, every
    process ends and jinja2 renders what it is given, and on a [host], where
    [Popen] can raise, [wait()] can block on a pipe that nobody reads, and
    jinja2 can fail to compile or to render; the functions on a host carry
    the suffix [_on] and do what those in the world do whenever none of
    this happens. *)

From Stdlib Require Import Ascii.
From stdpp Require Import base list strings gmap.

(** ** Python text operations on lists of characters *)

Section text.
Context {A : Type} `{!EqDecision A}.

(** [p] occurs in [s] as a contiguous block (Python's [p in s]). *)
Definition infix_of (p s : list A) : Prop := ∃ a b, s = a ++ p ++ b.

Fixpoint infix_b (p s : list A) : bool :=
  bool_decide (p `prefix_of` s) ||
  match s with
  | [] => false
  | _ :: s' => infix_b p s'
  end.

(** [str.replace(old, new)] for a non-empty [old]: the leftmost occurrence
    is replaced and the scan resumes behind it.  The fuel bounds the number
    of scan steps; [replace_list] supplies the length of the text. *)
Fixpoint replace_fuel (n : nat) (old new s : list A) : list A :=
  match n with
  | O => s
  | S n' =>
      match s with
      | [] => []
      | c :: s' =>
          if bool_decide (old `prefix_of` s)
          then new ++ replace_fuel n' old new (drop (length old) s)
          else c :: replace_fuel n' old new s'
      end
  end.

(** With an empty [old] Python puts [new] before every character and at
    the end. *)
Definition replace_list (old new s : list A) : list A :=
  match old with
  | [] => new ++ flat_map (λ c, c :: new) s
  | _ => replace_fuel (length s) old new s
  end.

(** [str.strip()] with a character class. *)
Fixpoint lstrip_list (sp : A → bool) (s : list A) : list A :=
  match s with
  | [] => []
  | c :: s' => if sp c then lstrip_list sp s' else s
  end.
Definition rstrip_list (sp : A → bool) (s : list A) : list A :=
  reverse (lstrip_list sp (reverse s)).
Definition strip_list (sp : A → bool) (s : list A) : list A :=
  rstrip_list sp (lstrip_list sp s).

(** [str.split()] without a separator: maximal runs of non-blank
    characters.  [cur] is the run being read, reversed. *)
Fixpoint split_go (sp : A → bool) (cur : list A) (s : list A) : list (list A) :=
  match s with
  | [] => match cur with [] => [] | _ => [reverse cur] end
  | c :: s' =>
      if sp c
      then match cur with
           | [] => split_go sp [] s'
           | _ => reverse cur :: split_go sp [] s'
           end
      else split_go sp (c :: cur) s'
  end.
Definition split_list (sp : A → bool) (s : list A) : list (list A) :=
  split_go sp [] s.
End text.

(** ** Python [str] values *)

Abbreviation chars := String.list_ascii_of_string.
Abbreviation text := String.string_of_list_ascii.

(** [str.isspace] on the code points below 256. *)
Definition isspace (c : ascii) : bool :=
  match c with
  | "009" | "010" | "011" | "012" | "013"
  | "028" | "029" | "030" | "031" | " " | "133" | "160" => true
  | _ => false
  end%char.

Definition py_strip (s : string) : string := text (strip_list isspace (chars s)).
Definition py_replace (old new s : string) : string :=
  text (replace_list (chars old) (chars new) (chars s)).
Definition py_split (s : string) : list string :=
  text <$> split_list isspace (chars s).

(** [p in s] on strings. *)
Definition contains (s p : string) : Prop := infix_of (chars p) (chars s).
Definition contains_b (s p : string) : bool := infix_b (chars p) (chars s).

(** Truth value of a [str]: every string but the empty one. *)
Definition truthy (s : string) : bool :=
  match s with EmptyString => false | _ => true end.

Definition nl : string := String "010"%char EmptyString.
Definition dquote : string := String "034"%char EmptyString.

(** ** The data of the script *)

(** A Python [dict] with string keys and values, in insertion order:
    [dict(pairs)] keeps the first position of a key and its last value. *)
Definition pydict := list (string * string).

Fixpoint dict_set (k v : string) (d : pydict) : pydict :=
  match d with
  | [] => [(k, v)]
  | (k', v') :: d' =>
      if decide (k = k') then (k, v) :: d' else (k', v') :: dict_set k v d'
  end.

Definition py_dict (items : list (string * string)) : pydict :=
  foldl (λ d kv, dict_set kv.1 kv.2 d) [] items.

Fixpoint dict_get {V} (d : list (string * V)) (k : string) : option V :=
  match d with
  | [] => None
  | (k', v) :: d' => if decide (k = k') then Some v else dict_get d' k
  end.

(** One record of the table [images]. *)
Record image := { base : string; arch : string; s6arch : string }.

Definition image_items (i : image) : list (string * string) :=
  [("base", base i); ("arch", arch i); ("s6arch", s6arch i)].

Definition table := list (string * list image).

Definition base_vars : pydict :=
  [("name", "pihole/pihole");
   ("maintainer", "adam@diginc.us");
   ("s6_version", "v1.22.1.0")].

Definition os_base_vars : list (string * pydict) :=
  [("debian",
    [("php_env_config", "/etc/lighttpd/conf-enabled/15-fastcgi-php.conf");
     ("php_error_log", "/var/log/lighttpd/error.log")]);
   ("alpine",
    [("php_env_config", "/etc/php5/fpm.d/envs.conf");
     ("php_error_log", "/var/log/nginx/error.log")])].

Definition images : table :=
  [("debian",
    [{| base := "pihole/debian-base:latest"; arch := "amd64"; s6arch := "amd64" |};
     {| base := "multiarch/debian-debootstrap:armel-stretch-slim";
        arch := "armel"; s6arch := "arm" |};
     {| base := "multiarch/debian-debootstrap:armhf-stretch-slim";
        arch := "armhf"; s6arch := "arm" |};
     {| base := "multiarch/debian-debootstrap:arm64-stretch-slim";
        arch := "arm64"; s6arch := "aarch64" |}]);
   ("alpine",
    [{| base := "alpine:edge"; arch := "amd64"; s6arch := "amd64" |};
     {| base := "multiarch/alpine:armhf-edge"; arch := "arm"; s6arch := "arm" |};
     {| base := "multiarch/alpine:arm64-edge"; arch := "arm64"; s6arch := "aarch64" |}])].

(** The dictionary returned by [docopt].  [--hub_tag] is [None] or a [str]. *)
Record Args := {
  opt_os : list string;
  opt_hub_tag : option string;
  opt_arch : list string;
  opt_v : bool;
  opt_t : bool;
  opt_no_build : bool;
  opt_no_generate : bool;
  opt_no_cache : bool;
}.

(** ** The environment *)

(** What a started process does: the lines the verbose loop reads from its
    pipe, and its exit status.  In a [world] every program is found and
    every process ends; a [host], further down, drops both assumptions. *)
Record proc_result := { streamed : list string; returncode : Z }.

(** [version_file] is the content of [./VERSION] and [template_file] the
    source of [Dockerfile.template] next to the script, [None] when the file
    does not exist.  [popen n argv] is what the [n]-th process of the run
    does when started with [argv]. *)
Record world := {
  version_file : option string;
  template_file : option string;
  popen : nat → list string → proc_result;
}.

(** ** State, exceptions and the monad *)

Inductive exn :=
  | FileNotFoundError (path : string)
  | TemplateNotFound (name : string)
  | KeyError (key : string)
  | TemplateSyntaxError (name : string)
  | UndefinedError (message : string)
  | IndexError.

Inductive result (A : Type) :=
  | Ok (a : A)
  | Raise (e : exn).
Arguments Ok {A} a.
Arguments Raise {A} e.

(** The globals [__version__] and [images], the files written so far, the
    text printed so far and the argument vectors of the processes started
    so far. *)
Record state := {
  g_version : string;
  g_images : table;
  files : gmap string string;
  console : list string;
  spawned : list (list string);
}.

Definition M (A : Type) : Type := state → result A * state.

Global Instance M_ret : MRet M := λ A a s, (Ok a, s).
Global Instance M_bind : MBind M := λ A B k m s,
  match m s with
  | (Ok a, s') => k a s'
  | (Raise e, s') => (Raise e, s')
  end.
Definition raise {A} (e : exn) : M A := λ s, (Raise e, s).

Fixpoint for_ {A} (l : list A) (body : A → M unit) : M unit :=
  match l with
  | [] => mret tt
  | x :: l' => body x;; for_ l' body
  end.

Definition set_files (f : gmap string string) (st : state) : state :=
  {| g_version := g_version st; g_images := g_images st; files := f;
     console := console st; spawned := spawned st |}.
Definition set_console (c : list string) (st : state) : state :=
  {| g_version := g_version st; g_images := g_images st; files := files st;
     console := c; spawned := spawned st |}.
Definition set_spawned (p : list (list string)) (st : state) : state :=
  {| g_version := g_version st; g_images := g_images st; files := files st;
     console := console st; spawned := p |}.

(** [print(s)] writes [s] and a newline; [print(s, end='')] writes [s]. *)
Definition write_stdout (s : string) : M unit :=
  λ st, (Ok tt, set_console (console st ++ [s]) st).
Definition print (s : string) : M unit := write_stdout (s +:+ nl).

(** [with open(name, 'w') as f: f.write(content)]. *)
Definition write_file (name content : string) : M unit :=
  λ st, (Ok tt, set_files (<[name := content]> (files st)) st).

Definition get_version : M string := λ st, (Ok (g_version st), st).
Definition get_images : M table := λ st, (Ok (g_images st), st).

(** [subprocess.Popen(argv, ...)] followed by the reads and the [wait()],
    for a program that is found and a process that ends: the process is the
    next one of the run.  [Popen] and [wait] on a [host] are the ones that
    raise or block. *)
Definition run_process (w : world) (argv : list string) : M proc_result :=
  λ st, (Ok (popen w (length (spawned st)) argv),
         set_spawned (spawned st ++ [argv]) st).

(** [j2_env.get_template(name)] for a source that compiles;
    [get_template_on] is the one that also raises for a source that does
    not. *)
Definition get_template (w : world) (name : string) : M string :=
  match template_file w with
  | Some src => mret src
  | None => raise (TemplateNotFound name)
  end.

(** [d[k]] *)
Definition subscript {V} (d : list (string * V)) (k : string) : M V :=
  match dict_get d k with
  | Some v => mret v
  | None => raise (KeyError k)
  end.

(** ** The script *)

(** Lines 48-50: the content of [VERSION], stripped, with [release/]
    replaced by [release-]. *)
Definition load_version (w : world) : result string :=
  match version_file w with
  | None => Raise (FileNotFoundError "VERSION")
  | Some raw =>
      let raw_version := py_strip raw in
      Ok (py_replace "release/" "release-" raw_version)
  end.

(** The module body up to the function definitions: [__version__] is read
    and [images] is bound; nothing has been written, printed or started. *)
Definition module_init (w : world) : result state :=
  match load_version w with
  | Raise e => Raise e
  | Ok v => Ok {| g_version := v; g_images := images; files := ∅;
                  console := []; spawned := [] |}
  end.

Definition dockerfile_name (arch : string) : string := "Dockerfile_" +:+ arch.

(** ['{}:{}_{}_{}'.format(docker_repo, __version__, os, arch)] *)
Definition repo_tag_of (docker_repo version os arch : string) : string :=
  docker_repo +:+ ":" +:+ version +:+ "_" +:+ os +:+ "_" +:+ arch.

Definition build_command_of (time no_cache cache dockerfile create_tag : string)
  : string :=
  time +:+ "docker build " +:+ no_cache +:+ " --pull --cache-from=" +:+ dquote
    +:+ cache +:+ "," +:+ create_tag +:+ dquote +:+ " -f " +:+ dockerfile
    +:+ " -t " +:+ create_tag +:+ " .".

Definition hub_tag_command_of (time create_tag hub_tag : string) : string :=
  time +:+ "docker tag " +:+ create_tag +:+ " " +:+ hub_tag.

(** Truth value and [str()] of [args['--hub_tag']]. *)
Definition hub_tag_truthy (args : Args) : bool :=
  match opt_hub_tag args with
  | None => false
  | Some t => truthy t
  end.
Definition hub_tag_str (args : Args) : string := default "None" (opt_hub_tag args).

Section script.
(** jinja2's [Template.render], a function of the template source and of
    the dictionary passed as [pihole]; docopt's [repr] of the arguments. *)
Variable render : string → pydict → string.
Variable repr_args : Args → string.

(** What lines 105-113 build for one record. *)
Definition merged_data_of (version os : string) (os_vars : pydict)
    (img : image) : pydict :=
  let s6arch := if truthy (s6arch img) then s6arch img else arch img in
  py_dict ([("version", version)] ++ [("os", os)] ++ base_vars ++ os_vars
           ++ image_items img ++ [("s6arch", s6arch)]).

(** The body of the inner loop of [generate_dockerfiles]. *)
Definition generate_one (w : world) (args : Args) (os : string)
    (img : image) : M unit :=
  if negb (bool_decide (os ∈ opt_os args)) then mret tt
  else if negb (bool_decide (arch img ∈ opt_arch args)) then mret tt
  else
    version ← get_version;
    os_vars ← subscript os_base_vars os;
    let merged_data := merged_data_of version os os_vars img in
    template ← get_template w "Dockerfile.template";
    let dockerfile := dockerfile_name (arch img) in
    write_file dockerfile (render template merged_data).

Definition generate_dockerfiles (w : world) (args : Args) : M unit :=
  if opt_no_generate args then print " ::: Skipping Dockerfile generation"
  else
    imgs ← get_images;
    for_ imgs (λ '(os, archs), for_ archs (generate_one w args os)).

Definition run_and_stream_command_output (w : world) (command : string)
    (args : Args) : M unit :=
  print ("Running " +:+ command);;
  build_result ← run_process w (py_split command);
  (if opt_v args then for_ (streamed build_result) write_stdout else mret tt);;
  if bool_decide (returncode build_result ≠ 0%Z)
  then print "     ::: Error running";; print "None"
  else mret tt.

Definition build (w : world) (docker_repo os arch : string) (args : Args)
    : M unit :=
  let dockerfile := dockerfile_name arch in
  version ← get_version;
  let repo_tag := repo_tag_of docker_repo version os arch in
  let cached_image := "pihole" +:+ "/" +:+ repo_tag in
  print (" ::: Building " +:+ repo_tag);;
  let time := if opt_t args then "time " else EmptyString in
  let no_cache := if opt_no_cache args then "--no-cache" else EmptyString in
  let build_command :=
    build_command_of time no_cache cached_image dockerfile repo_tag in
  print (" ::: Building " +:+ dockerfile +:+ " into " +:+ repo_tag);;
  run_and_stream_command_output w build_command args;;
  (if opt_v args then print (build_command +:+ " " +:+ nl) else mret tt);;
  if hub_tag_truthy args then
    let hub_tag_command := hub_tag_command_of time repo_tag (hub_tag_str args) in
    print (" ::: Tagging " +:+ repo_tag +:+ " into " +:+ hub_tag_str args);;
    run_and_stream_command_output w hub_tag_command args
  else mret tt.

Definition build_dockerfiles (w : world) (args : Args) : M unit :=
  if opt_no_build args then print " ::: Skipping Dockerfile building"
  else
    for_ (opt_os args) (λ os,
      for_ (opt_arch args) (λ arch, build w "pihole" os arch args)).

(** Lines 173-177. *)
Definition main (w : world) (args : Args) : M unit :=
  (if opt_v args then print (repr_args args) else mret tt);;
  generate_dockerfiles w args;;
  build_dockerfiles w args.

(** A whole run: the module body, then [main].  The state is [None] when
    the module body raised before [main] was reached. *)
Definition program (w : world) (args : Args) : result unit * option state :=
  match module_init w with
  | Raise e => (Raise e, None)
  | Ok s0 => let '(r, s) := main w args s0 in (r, Some s)
  end.
End script.

(** The exit status of the interpreter: 0 at the end of the script, 1 after
    an uncaught exception (its traceback goes to the console). *)
Definition exit_status {A} (r : result A) : Z :=
  match r with Ok _ => 0%Z | Raise _ => 1%Z end.

(** ** The usage text and docopt

    docopt reads the default of an option from its description, and the
    description starts behind the first two consecutive blanks of the line
    ([Option.parse]: [partition] at two blanks, then the first match of the
    pattern [default: ...] in square brackets, letters compared without
    case, when the option takes an argument). *)

Definition lower (c : ascii) : ascii :=
  let n := nat_of_ascii c in
  if (65 <=? n)%nat && (n <=? 90)%nat then ascii_of_nat (n + 32) else c.

(** Position of the leftmost occurrence of [p] in [s]. *)
Fixpoint find_infix (p s : list ascii) : option nat :=
  if bool_decide (p `prefix_of` s) then Some 0%nat
  else match s with
       | [] => None
       | _ :: s' => S <$> find_infix p s'
       end.

(** [s.partition(sep)]: the text before and behind the first [sep]. *)
Definition partition (sep s : list ascii) : list ascii * list ascii :=
  match find_infix sep s with
  | Some i => (take i s, drop (i + length sep) s)
  | None => (s, [])
  end.

Fixpoint line_of (s : list ascii) : list ascii :=
  match s with
  | [] => []
  | c :: s' => if decide (c = "010"%char) then [] else c :: line_of s'
  end.

(** The first match of the default pattern: from the leftmost opening to
    the last closing bracket of that line. *)
Definition default_in (description : list ascii) : option (list ascii) :=
  i ← find_infix (chars "[default: ") (lower <$> description);
  let rest := line_of (drop (i + 10) description) in
  j ← find_infix (chars "]") (reverse rest);
  Some (take (length rest - 1 - j) rest).

(** [Option.parse]: the number of arguments of the option and its default
    ([None] when it has none). *)
Definition option_parse (option_description : string) : nat * option string :=
  let '(options, description) :=
    partition (chars "  ") (strip_list isspace (chars option_description)) in
  let options :=
    replace_list (chars "=") (chars " ")
      (replace_list (chars ",") (chars " ") options) in
  let argcount :=
    if forallb (λ tok, match tok with "-"%char :: _ => true | _ => false end)
               (split_list isspace options)
    then 0%nat else 1%nat in
  (argcount, if argcount is O then None else text <$> default_in description).

(** Lines 11-13 of the usage text. *)
Definition doc_os : string :=
  "    --os=<os>       What OS(s) to build             [default: alpine debian]".
Definition doc_hub_tag : string :=
  "    --hub_tag=<tag> What the Docker Hub Image should be tagged as [default: None]".
Definition doc_arch : string :=
  "    --arch=<arch>   What Architecture(s) to build   [default: amd64 armel armhf arm64]".

(** The options as the user gave them. *)
Record command_line := {
  cl_os : list string;
  cl_hub_tag : option string;
  cl_arch : list string;
  cl_v : bool;
  cl_t : bool;
  cl_no_build : bool;
  cl_no_generate : bool;
  cl_no_cache : bool;
}.

(** A repeated option holds the values given, or its default split at
    blanks; a single one the value given, or its default. *)
Definition repeated (given : list string) (doc : string) : list string :=
  match given with
  | [] => match (option_parse doc).2 with
          | Some d => py_split d
          | None => []
          end
  | _ => given
  end.

(** [docopt(__doc__)] for the usage of line 5; [--no-build] and
    [--no-generate] exclude each other, and docopt leaves the script when
    both are given. *)
Definition docopt (c : command_line) : option Args :=
  if cl_no_build c && cl_no_generate c then None
  else Some {| opt_os := repeated (cl_os c) doc_os;
               opt_hub_tag := match cl_hub_tag c with
                              | Some t => Some t
                              | None => (option_parse doc_hub_tag).2
                              end;
               opt_arch := repeated (cl_arch c) doc_arch;
               opt_v := cl_v c; opt_t := cl_t c;
               opt_no_build := cl_no_build c;
               opt_no_generate := cl_no_generate c;
               opt_no_cache := cl_no_cache c |}.

(** ** What a run is meant to do *)

(** The records of a table paired with their OS, in the order in which the
    two loops of [generate_dockerfiles] visit them. *)
Definition records (tbl : table) : list (string * image) :=
  tbl ≫= λ '(os, archs), (λ img, (os, img)) <$> archs.

(** The two tests of lines 101-104. *)
Definition selected (args : Args) (r : string * image) : bool :=
  bool_decide (r.1 ∈ opt_os args) && bool_decide (arch r.2 ∈ opt_arch args).

Definition selected_records (args : Args) (tbl : table) : list (string * image) :=
  filter (λ r, selected args r = true) (records tbl).

(** The (OS, architecture) pairs of a table, and the file names of those
    pairs whose OS and architecture are both among the chosen ones. *)
Definition pairs (tbl : table) : list (string * string) :=
  (λ r, (r.1, arch r.2)) <$> records tbl.

Definition expected_names (tbl : table) (oss archs : list string) : gset string :=
  list_to_set
    ((λ p, dockerfile_name p.2) <$> filter (λ p, p.1 ∈ oss ∧ p.2 ∈ archs) (pairs tbl)).

(** What is rendered for one record. *)
Definition rendering (render : string → pydict → string) (tpl version : string)
    (r : string * image) : string :=
  render tpl (merged_data_of version r.1 (default [] (dict_get os_base_vars r.1)) r.2).

(** The state behind one pass of the inner loop of [generate_dockerfiles]
    when the template exists, and the files behind all passes. *)
Definition gen_step (render : string → pydict → string) (tpl : string)
    (args : Args) (r : string * image) (s : state) : state :=
  if selected args r
  then set_files (<[dockerfile_name (arch r.2) :=
                      rendering render tpl (g_version s) r]> (files s)) s
  else s.

Definition written (render : string → pydict → string) (tpl version : string)
    (rs : list (string * image)) (fs : gmap string string) : gmap string string :=
  foldl (λ fs r, <[dockerfile_name (arch r.2) := rendering render tpl version r]> fs)
        fs rs.

(** Every OS of the table has its entry in [os_base_vars]. *)
Definition known_os (tbl : table) : Prop :=
  Forall (λ r : string * image, is_Some (dict_get os_base_vars r.1)) (records tbl).

(** The command lines of one (OS, architecture) pair, split as [Popen]
    receives them. *)
Definition time_of (args : Args) : string :=
  if opt_t args then "time " else EmptyString.
Definition no_cache_of (args : Args) : string :=
  if opt_no_cache args then "--no-cache" else EmptyString.

Definition build_argv (version : string) (args : Args) (p : string * string)
  : list string :=
  let repo_tag := repo_tag_of "pihole" version p.1 p.2 in
  py_split (build_command_of (time_of args) (no_cache_of args)
              ("pihole" +:+ "/" +:+ repo_tag) (dockerfile_name p.2) repo_tag).

Definition tag_argv (version : string) (args : Args) (p : string * string)
  : list string :=
  py_split (hub_tag_command_of (time_of args)
              (repo_tag_of "pihole" version p.1 p.2) (hub_tag_str args)).

Definition commands_of (version : string) (args : Args) (p : string * string)
  : list (list string) :=
  build_argv version args p :: if hub_tag_truthy args then [tag_argv version args p] else [].

(** Which tool and sub-command an argument vector starts, behind an
    optional [time]. *)
Definition behind_time (argv : list string) : list string :=
  match argv with
  | t :: rest => if bool_decide (t = "time") then rest else argv
  | [] => []
  end.
Definition is_docker (sub : string) (argv : list string) : bool :=
  match behind_time argv with
  | d :: c :: _ => bool_decide (d = "docker") && bool_decide (c = sub)
  | _ => false
  end.

(** [s'] is [s] after some processes were started and some text printed;
    globals and files are as before. *)
Definition ran (cmds : list (list string)) (s s' : state) : Prop :=
  g_version s' = g_version s ∧ g_images s' = g_images s ∧ files s' = files s ∧
  spawned s' = spawned s ++ cmds ∧ console s `prefix_of` console s'.

(** [m] neither raises nor touches globals and files, and starts exactly
    the processes [cmds], when [__version__] is [v]. *)
Definition does (v : string) (m : M unit) (cmds : list (list string)) : Prop :=
  ∀ s, g_version s = v → ∃ s', m s = (Ok tt, s') ∧ ran cmds s s'.

(** What one call of [run_and_stream_command_output] prints when the
    process it starts is the [n]-th of the run. *)
Definition run_output (w : world) (args : Args) (n : nat) (command : string)
  : list string :=
  let build_result := popen w n (py_split command) in
  ["Running " +:+ command +:+ nl]
  ++ (if opt_v args then streamed build_result else [])
  ++ (if bool_decide (returncode build_result ≠ 0%Z)
      then ["     ::: Error running" +:+ nl; "None" +:+ nl] else []).

(** The processes of a whole build phase. *)
Definition planned (version : string) (args : Args) : list (list string) :=
  if opt_no_build args then []
  else list_prod (opt_os args) (opt_arch args) ≫= commands_of version args.

(** Generation raises: it is not skipped, a record is selected and the
    template does not exist. *)
Definition gen_fails (w : world) (args : Args) (tbl : table) : bool :=
  negb (opt_no_generate args) &&
  match template_file w with None => true | Some _ => false end &&
  existsb (selected args) (records tbl).

(** The files behind the generation phase. *)
Definition generated (render : string → pydict → string) (w : world)
    (args : Args) (version : string) (tbl : table) (fs : gmap string string)
  : gmap string string :=
  if opt_no_generate args then fs
  else match template_file w with
       | Some tpl => written render tpl version (selected_records args tbl) fs
       | None => fs
       end.

(** [m] leaves the table [images] as it finds it, whether it raises or not. *)
Definition keeps_images {A} (m : M A) : Prop :=
  ∀ s, g_images (m s).2 = g_images s.

(** The user gave a hub tag: [--hub_tag] with a non-empty value. *)
Definition given_hub_tag (c : command_line) : bool :=
  match cl_hub_tag c with
  | Some t => truthy t
  | None => false
  end.

(** ** Sample runs *)

Definition sample_render (tpl : string) (d : pydict) : string :=
  tpl +:+ " " +:+ default EmptyString (dict_get d "os")
      +:+ "/" +:+ default EmptyString (dict_get d "arch").
Definition sample_repr (args : Args) : string := "{...}".

(** Both files exist and every process fails. *)
Definition sample_world : world :=
  {| version_file := Some ("release/v4.0" +:+ nl);
     template_file := Some "FROM";
     popen := λ _ _, {| streamed := ["denied" +:+ nl]; returncode := 1 |} |}.

(** The same, with processes that succeed quietly. *)
Definition quiet_world : world :=
  {| version_file := Some ("release/v4.0" +:+ nl);
     template_file := Some "FROM";
     popen := λ _ _, {| streamed := []; returncode := 0 |} |}.

(** [VERSION] is missing; the template is missing. *)
Definition no_version_world : world :=
  {| version_file := None;
     template_file := Some "FROM";
     popen := λ _ _, {| streamed := []; returncode := 0 |} |}.

Definition no_template_world : world :=
  {| version_file := Some ("release/v4.0" +:+ nl);
     template_file := None;
     popen := λ _ _, {| streamed := []; returncode := 0 |} |}.

Definition hub_tag_option : command_line :=
  {| cl_os := ["debian"]; cl_hub_tag := Some "latest"; cl_arch := ["amd64"];
     cl_v := true; cl_t := true; cl_no_build := false;
     cl_no_generate := false; cl_no_cache := true |}.

Definition hub_tag_args : Args :=
  {| opt_os := ["debian"]; opt_hub_tag := Some "latest"; opt_arch := ["amd64"];
     opt_v := true; opt_t := true; opt_no_build := false;
     opt_no_generate := false; opt_no_cache := true |}.

Definition debian_amd64 : string * image :=
  ("debian",
   {| base := "pihole/debian-base:latest"; arch := "amd64"; s6arch := "amd64" |}).
Definition alpine_amd64 : string * image :=
  ("alpine", {| base := "alpine:edge"; arch := "amd64"; s6arch := "amd64" |}).

(** The state in which [main] starts in these worlds. *)
Definition sample_state : state :=
  {| g_version := "release-v4.0"; g_images := images; files := ∅;
     console := []; spawned := [] |}.

Definition no_options : command_line :=
  {| cl_os := []; cl_hub_tag := None; cl_arch := [];
     cl_v := false; cl_t := false; cl_no_build := false;
     cl_no_generate := false; cl_no_cache := false |}.

Definition default_args : Args :=
  {| opt_os := ["alpine"; "debian"]; opt_hub_tag := None;
     opt_arch := ["amd64"; "armel"; "armhf"; "arm64"];
     opt_v := false; opt_t := false; opt_no_build := false;
     opt_no_generate := false; opt_no_cache := false |}.

Definition no_generate_args : Args :=
  {| opt_os := ["alpine"; "debian"]; opt_hub_tag := None;
     opt_arch := ["amd64"; "armel"; "armhf"; "arm64"];
     opt_v := false; opt_t := false; opt_no_build := false;
     opt_no_generate := true; opt_no_cache := false |}.

Definition no_build_args : Args :=
  {| opt_os := ["alpine"; "debian"]; opt_hub_tag := None;
     opt_arch := ["amd64"; "armel"; "armhf"; "arm64"];
     opt_v := false; opt_t := false; opt_no_build := true;
     opt_no_generate := false; opt_no_cache := false |}.

(** ** Further notions *)

(** A text without blanks, and a text of blanks only. *)
Definition no_space (s : string) : Prop :=
  Forall (λ c, isspace c = false) (chars s).
Definition blank (s : string) : Prop :=
  Forall (λ c, isspace c = true) (chars s).

(** [sep.join(words)]. *)
Fixpoint join_list {A} (sep : list A) (ws : list (list A)) : list A :=
  match ws with
  | [] => []
  | w :: ws' => w ++ match ws' with
                     | [] => []
                     | _ => sep ++ join_list sep ws'
                     end
  end.
Definition py_join (sep : string) (ws : list string) : string :=
  text (join_list (chars sep) (chars <$> ws)).

Definition set_t (b : bool) (args : Args) : Args :=
  {| opt_os := opt_os args; opt_hub_tag := opt_hub_tag args;
     opt_arch := opt_arch args; opt_v := opt_v args; opt_t := b;
     opt_no_build := opt_no_build args; opt_no_generate := opt_no_generate args;
     opt_no_cache := opt_no_cache args |}.

(** The value that line 105 computes for the key [s6arch]. *)
Definition s6arch_of (img : image) : string :=
  if truthy (s6arch img) then s6arch img else arch img.

(** The keys of the items of a record. *)
Definition image_keys : list string := ["base"; "arch"; "s6arch"].

(** The words of the two command lines of a pair. *)
Definition build_words (version : string) (args : Args) (p : string * string)
  : list string :=
  let repo_tag := repo_tag_of "pihole" version p.1 p.2 in
  (if opt_t args then ["time"] else [])
  ++ ["docker"; "build"]
  ++ (if opt_no_cache args then ["--no-cache"] else [])
  ++ ["--pull";
      "--cache-from=" +:+ dquote +:+ "pihole/" +:+ repo_tag +:+ "," +:+ repo_tag
        +:+ dquote;
      "-f"; dockerfile_name p.2; "-t"; repo_tag; "."].

Definition tag_words (version : string) (args : Args) (p : string * string)
  : list string :=
  (if opt_t args then ["time"] else [])
  ++ ["docker"; "tag"; repo_tag_of "pihole" version p.1 p.2; hub_tag_str args].

(** A table with an OS that [os_base_vars] does not know, and arguments
    that select it. *)
Definition ubuntu_state : state :=
  {| g_version := "v1";
     g_images :=
       [("debian",
         [{| base := "pihole/debian-base:latest"; arch := "amd64"; s6arch := "amd64" |}]);
        ("ubuntu", [{| base := "ubuntu:bionic"; arch := "amd64"; s6arch := EmptyString |}])];
     files := ∅; console := []; spawned := [] |}.

Definition ubuntu_args : Args :=
  {| opt_os := ["debian"; "ubuntu"]; opt_hub_tag := None; opt_arch := ["amd64"];
     opt_v := false; opt_t := false; opt_no_build := false;
     opt_no_generate := false; opt_no_cache := false |}.

Definition fedora_args : Args :=
  {| opt_os := ["fedora"]; opt_hub_tag := None; opt_arch := ["amd64"];
     opt_v := false; opt_t := false; opt_no_build := false;
     opt_no_generate := false; opt_no_cache := false |}.

(** ** A host on which more can go wrong *)

(** A [world] takes every program to be found and every process to end, and
    jinja2 to compile and render whatever it is given.  A [host] adds which
    programs [Popen] finds and which processes write more than their pipe
    holds before they end ([overflows n argv], for the [n]-th process of the
    run); [jinja2] says which template sources compile and what rendering
    gives, which may be an exception. *)
Record host := {
  host_world : world;
  on_path : string → bool;
  overflows : nat → list string → bool;
}.

Record jinja2 := {
  compiles : string → bool;
  render_or_raise : string → pydict → result string;
}.

(** How a run stops early: with an exception that nothing catches, or in a
    [wait()] that never returns. *)
Inductive halt :=
  | Uncaught (e : exn)
  | Blocked.

Inductive outcome (A : Type) :=
  | Done (a : A)
  | Halt (h : halt).
Arguments Done {A} a.
Arguments Halt {A} h.

Definition HM (A : Type) : Type := state → outcome A * state.

Global Instance HM_ret : MRet HM := λ A a s, (Done a, s).
Global Instance HM_bind : MBind HM := λ A B k m s,
  match m s with
  | (Done a, s') => k a s'
  | (Halt h, s') => (Halt h, s')
  end.

Definition to_outcome {A} (r : result A) : outcome A :=
  match r with
  | Ok a => Done a
  | Raise e => Halt (Uncaught e)
  end.

(** A computation that neither starts a process nor asks jinja2. *)
Definition lift {A} (m : M A) : HM A :=
  λ s, (to_outcome (m s).1, (m s).2).

Fixpoint for_on {A} (l : list A) (body : A → HM unit) : HM unit :=
  match l with
  | [] => mret tt
  | x :: l' => body x;; for_on l' body
  end.

(** [subprocess.Popen(argv, ...)]: [args[0]] is the program, and an empty
    list has none; a program that is not found is a [FileNotFoundError].
    The value is the number of the process in the run. *)
Definition Popen (h : host) (argv : list string) : HM nat :=
  λ st,
    match argv with
    | [] => (Halt (Uncaught IndexError), st)
    | program :: _ =>
        if on_path h program
        then (Done (length (spawned st)), set_spawned (spawned st ++ [argv]) st)
        else (Halt (Uncaught (FileNotFoundError program)), st)
    end.

(** [build_result.wait()] returns when the process has ended.  A process
    that writes more than the pipe holds ends only if its output is read,
    which the loop under [-v] does and nothing else. *)
Definition wait (h : host) (n : nat) (argv : list string) (read : bool)
  : HM unit :=
  λ st, if negb read && overflows h n argv then (Halt Blocked, st)
        else (Done tt, st).

(** [j2_env.get_template(name)]: the source is loaded and compiled. *)
Definition get_template_on (j : jinja2) (h : host) (name : string) : HM string :=
  λ st,
    match template_file (host_world h) with
    | None => (Halt (Uncaught (TemplateNotFound name)), st)
    | Some src =>
        if compiles j src then (Done src, st)
        else (Halt (Uncaught (TemplateSyntaxError name)), st)
    end.

(** [template.render(pihole=merged_data)]. *)
Definition render_on (j : jinja2) (template : string) (data : pydict) : HM string :=
  λ st, (to_outcome (render_or_raise j template data), st).

Section host_script.
Variable j : jinja2.
Variable repr_args : Args → string.
Variable h : host.

(** The body of the inner loop of [generate_dockerfiles]: [open(dockerfile,
    'w')] empties the file before [render] is called. *)
Definition generate_one_on (args : Args) (os : string) (img : image) : HM unit :=
  if negb (bool_decide (os ∈ opt_os args)) then mret tt
  else if negb (bool_decide (arch img ∈ opt_arch args)) then mret tt
  else
    version ← lift get_version;
    os_vars ← lift (subscript os_base_vars os);
    let merged_data := merged_data_of version os os_vars img in
    template ← get_template_on j h "Dockerfile.template";
    let dockerfile := dockerfile_name (arch img) in
    lift (write_file dockerfile EmptyString);;
    content ← render_on j template merged_data;
    lift (write_file dockerfile content).

Definition generate_dockerfiles_on (args : Args) : HM unit :=
  if opt_no_generate args then lift (print " ::: Skipping Dockerfile generation")
  else
    imgs ← lift get_images;
    for_on imgs (λ '(os, archs), for_on archs (generate_one_on args os)).

Definition run_and_stream_command_output_on (command : string) (args : Args)
  : HM unit :=
  lift (print ("Running " +:+ command));;
  let argv := py_split command in
  n ← Popen h argv;
  let build_result := popen (host_world h) n argv in
  (if opt_v args then lift (for_ (streamed build_result) write_stdout)
   else mret tt);;
  wait h n argv (opt_v args);;
  if bool_decide (returncode build_result ≠ 0%Z)
  then lift (print "     ::: Error running";; print "None")
  else mret tt.

Definition build_on (docker_repo os arch : string) (args : Args) : HM unit :=
  let dockerfile := dockerfile_name arch in
  version ← lift get_version;
  let repo_tag := repo_tag_of docker_repo version os arch in
  let cached_image := "pihole" +:+ "/" +:+ repo_tag in
  lift (print (" ::: Building " +:+ repo_tag));;
  let time := if opt_t args then "time " else EmptyString in
  let no_cache := if opt_no_cache args then "--no-cache" else EmptyString in
  let build_command :=
    build_command_of time no_cache cached_image dockerfile repo_tag in
  lift (print (" ::: Building " +:+ dockerfile +:+ " into " +:+ repo_tag));;
  run_and_stream_command_output_on build_command args;;
  (if opt_v args then lift (print (build_command +:+ " " +:+ nl)) else mret tt);;
  if hub_tag_truthy args then
    let hub_tag_command := hub_tag_command_of time repo_tag (hub_tag_str args) in
    lift (print (" ::: Tagging " +:+ repo_tag +:+ " into " +:+ hub_tag_str args));;
    run_and_stream_command_output_on hub_tag_command args
  else mret tt.

Definition build_dockerfiles_on (args : Args) : HM unit :=
  if opt_no_build args then lift (print " ::: Skipping Dockerfile building")
  else
    for_on (opt_os args) (λ os,
      for_on (opt_arch args) (λ arch, build_on "pihole" os arch args)).

Definition main_on (args : Args) : HM unit :=
  (if opt_v args then lift (print (repr_args args)) else mret tt);;
  generate_dockerfiles_on args;;
  build_dockerfiles_on args.

(** A whole run on the host. *)
Definition program_on (args : Args) : outcome unit * option state :=
  match module_init (host_world h) with
  | Raise e => (Halt (Uncaught e), None)
  | Ok s0 => let '(r, s) := main_on args s0 in (r, Some s)
  end.
End host_script.

(** [m'] does on every host what [m] does in its world. *)
Definition refines {A} (m' : HM A) (m : M A) : Prop := ∀ s, m' s = lift m s.

(** The program that [Popen] is given for a command of the build phase. *)
Definition tool_of (args : Args) : string :=
  if opt_t args then "time" else "docker".

(** The output of every process is read, or fits its pipe. *)
Definition read_or_fits (h : host) (args : Args) : Prop :=
  opt_v args = true ∨ ∀ n argv, overflows h n argv = false.

(** jinja2 compiles the template of the host, if there is one, and renders
    it for all data; [render_of] is then the text it gives. *)
Definition renders (j : jinja2) (h : host) : Prop :=
  ∀ tpl, template_file (host_world h) = Some tpl →
    compiles j tpl = true ∧ ∀ d, ∃ c, render_or_raise j tpl d = Ok c.

Definition render_of (j : jinja2) (tpl : string) (d : pydict) : string :=
  match render_or_raise j tpl d with
  | Ok c => c
  | Raise _ => EmptyString
  end.

(** One of the three failures that the specification names has happened:
    [VERSION] is missing, the template is missing, or a process that the run
    started ended with a status other than 0. *)
Definition named_failure (h : host) (end_state : option state) : Prop :=
  version_file (host_world h) = None ∨
  template_file (host_world h) = None ∨
  ∃ s n argv, end_state = Some s ∧ spawned s !! n = Some argv ∧
              returncode (popen (host_world h) n argv) ≠ 0%Z.



(** Sample hosts: one with every program and pipes that are never full, one
    without any program, one whose processes fill their pipes. *)
Definition sample_jinja : jinja2 :=
  {| compiles := λ _, true;
     render_or_raise := λ tpl d, Ok (sample_render tpl d) |}.

Definition full_host (w : world) : host :=
  {| host_world := w; on_path := λ _, true; overflows := λ _ _, false |}.

Definition bare_host : host :=
  {| host_world := quiet_world; on_path := λ _, false; overflows := λ _ _, false |}.


(** A jinja2 that rejects every source, and one that compiles every source
    and then fails to render it. *)
Definition rejecting_jinja : jinja2 :=
  {| compiles := λ _, false;
     render_or_raise := λ tpl d, Ok (sample_render tpl d) |}.

Definition failing_jinja : jinja2 :=
  {| compiles := λ _, true;
     render_or_raise := λ _ _, Raise (UndefinedError "pihole") |}.

Definition debian_amd64_args : Args :=
  {| opt_os := ["debian"]; opt_hub_tag := None; opt_arch := ["amd64"];
     opt_v := false; opt_t := false; opt_no_build := false;
     opt_no_generate := false; opt_no_cache := false |}.

(** ** Examples *)

Example strip_ex : py_strip (" release/v4.0 " +:+ nl) = "release/v4.0".
Proof. reflexivity. Qed.
Example replace_ex :
  py_replace "release/" "release-" "release/v4/release/x" = "release-v4/release-x".
Proof. reflexivity. Qed.
Example split_ex : py_split "time docker  build . " = ["time"; "docker"; "build"; "."].
Proof. reflexivity. Qed.
Example parse_os : option_parse doc_os = (1%nat, Some "alpine debian").
Proof. reflexivity. Qed.
Example parse_arch : option_parse doc_arch = (1%nat, Some "amd64 armel armhf arm64").
Proof. reflexivity. Qed.
Example parse_hub_tag : option_parse doc_hub_tag = (1%nat, None).
Proof. reflexivity. Qed.
Example docopt_no_options : docopt no_options = Some default_args.
Proof. reflexivity. Qed.
Example docopt_hub_tag_option : docopt hub_tag_option = Some hub_tag_args.
Proof. reflexivity. Qed.
Example docopt_exclusive :
  docopt {| cl_os := []; cl_hub_tag := None; cl_arch := []; cl_v := false;
            cl_t := false; cl_no_build := true; cl_no_generate := true;
            cl_no_cache := false |} = None.
Proof. reflexivity. Qed.

Example merged_data_ex :
  merged_data_of "v1" "debian" (default [] (dict_get os_base_vars "debian"))
    debian_amd64.2
  = [("version", "v1"); ("os", "debian"); ("name", "pihole/pihole");
     ("maintainer", "adam@diginc.us"); ("s6_version", "v1.22.1.0");
     ("php_env_config", "/etc/lighttpd/conf-enabled/15-fastcgi-php.conf");
     ("php_error_log", "/var/log/lighttpd/error.log");
     ("base", "pihole/debian-base:latest"); ("arch", "amd64");
     ("s6arch", "amd64")].
Proof. reflexivity. Qed.

Example build_argv_ex :
  build_argv "v1" default_args ("debian", "amd64")
  = ["docker"; "build"; "--pull";
     "--cache-from=" +:+ dquote
       +:+ "pihole/pihole:v1_debian_amd64,pihole:v1_debian_amd64" +:+ dquote;
     "-f"; "Dockerfile_amd64"; "-t"; "pihole:v1_debian_amd64"; "."].
Proof. reflexivity. Qed.

Example tag_argv_ex :
  tag_argv "v1" hub_tag_args ("debian", "amd64")
  = ["time"; "docker"; "tag"; "pihole:v1_debian_amd64"; "latest"].
Proof. reflexivity. Qed.

(** A verbose run for one pair with a hub tag, both processes failing: the
    processes started and the text printed. *)
Example hub_tag_run :
  (λ s, (spawned s, console s)) <$>
    (program sample_render sample_repr sample_world hub_tag_args).2
  = Some
      ([build_argv "release-v4.0" hub_tag_args ("debian", "amd64");
        ["time"; "docker"; "tag"; "pihole:release-v4.0_debian_amd64"; "latest"]],
       ["{...}" +:+ nl;
        " ::: Building pihole:release-v4.0_debian_amd64" +:+ nl;
        " ::: Building Dockerfile_amd64 into pihole:release-v4.0_debian_amd64" +:+ nl;
        "Running time docker build --no-cache --pull --cache-from=" +:+ dquote
          +:+ "pihole/pihole:release-v4.0_debian_amd64,pihole:release-v4.0_debian_amd64"
          +:+ dquote +:+ " -f Dockerfile_amd64 -t pihole:release-v4.0_debian_amd64 ."
          +:+ nl;
        "denied" +:+ nl;
        "     ::: Error running" +:+ nl;
        "None" +:+ nl;
        "time docker build --no-cache --pull --cache-from=" +:+ dquote
          +:+ "pihole/pihole:release-v4.0_debian_amd64,pihole:release-v4.0_debian_amd64"
          +:+ dquote +:+ " -f Dockerfile_amd64 -t pihole:release-v4.0_debian_amd64 ."
          +:+ " " +:+ nl +:+ nl;
        " ::: Tagging pihole:release-v4.0_debian_amd64 into latest" +:+ nl;
        "Running time docker tag pihole:release-v4.0_debian_amd64 latest" +:+ nl;
        "denied" +:+ nl;
        "     ::: Error running" +:+ nl;
        "None" +:+ nl]).
Proof. vm_compute. reflexivity. Qed.

(** With the defaults six records are selected and four files are written;
    the file of amd64 holds what was rendered for alpine. *)
Example default_run_files :
  (λ s, (length (selected_records default_args (g_images s)), size (files s),
         files s !! "Dockerfile_amd64", files s !! "Dockerfile_armel")) <$>
    (program sample_render sample_repr quiet_world default_args).2
  = Some (6, 4, Some "FROM alpine/amd64", Some "FROM debian/armel").
Proof. vm_compute. reflexivity. Qed.

Example missing_template_run :
  program sample_render sample_repr no_template_world default_args
  = (Raise (TemplateNotFound "Dockerfile.template"), Some sample_state).
Proof. vm_compute. reflexivity. Qed.

Example missing_version_run :
  program sample_render sample_repr no_version_world default_args
  = (Raise (FileNotFoundError "VERSION"), None).
Proof. reflexivity. Qed.

Example tag_has_no_release_slash :
  contains_b "pihole:release-v4.0_debian_amd64" "release/" = false.
Proof. reflexivity. Qed.

(** ** The monad *)

Lemma bind_ok {A B} (m : M A) (k : A → M B) s a s' :
  m s = (Ok a, s') → (m ≫= k) s = k a s'.
Proof. unfold mbind, M_bind. by intros ->. Qed.

Lemma bind_raise {A B} (m : M A) (k : A → M B) s e s' :
  m s = (Raise e, s') → (m ≫= k) s = (Raise e, s').
Proof. unfold mbind, M_bind. by intros ->. Qed.

Lemma bind_unfold {A B} (m : M A) (k : A → M B) s :
  (m ≫= k) s = match m s with
               | (Ok a, s') => k a s'
               | (Raise e, s') => (Raise e, s')
               end.
Proof. done. Qed.

Lemma for_ext {A} (l : list A) (f g : A → M unit) s :
  (∀ x s, f x s = g x s) → for_ l f s = for_ l g s.
Proof.
  intros Hfg. revert s. induction l as [|x l IH]; intros s; [done|].
  simpl. unfold mbind, M_bind. rewrite Hfg.
  destruct (g x s) as [[[]|e] s']; [apply IH | done].
Qed.

Lemma for_app {A} (l1 l2 : list A) (f : A → M unit) s :
  for_ (l1 ++ l2) f s = (for_ l1 f;; for_ l2 f) s.
Proof.
  revert s. induction l1 as [|x l1 IH]; intros s; [done|].
  simpl. unfold mbind, M_bind in *.
  destruct (f x s) as [[[]|e] s']; [apply IH | done].
Qed.

Lemma for_fmap {A B} (g : A → B) (l : list A) (f : B → M unit) s :
  for_ (g <$> l) f s = for_ l (λ x, f (g x)) s.
Proof.
  revert s. induction l as [|x l IH]; intros s; [done|].
  simpl. unfold mbind, M_bind. destruct (f (g x) s) as [[[]|e] s']; [apply IH | done].
Qed.

Lemma for_bind {A B} (g : A → list B) (l : list A) (f : B → M unit) s :
  for_ (l ≫= g) f s = for_ l (λ x, for_ (g x) f) s.
Proof.
  revert s. induction l as [|x l IH]; intros s; [done|].
  simpl. rewrite for_app, !bind_unfold.
  destruct (for_ (g x) f s) as [[[]|e] s']; [apply IH | done].
Qed.

(** A loop whose body never raises runs the body on every element. *)
Lemma for_total {A} (l : list A) (f : A → M unit) (step : A → state → state) s :
  (∀ x s, x ∈ l → f x s = (Ok tt, step x s)) →
  for_ l f s = (Ok tt, foldl (λ s x, step x s) s l).
Proof.
  revert s. induction l as [|x l IH]; intros s Hf; [done|].
  simpl. erewrite bind_ok by (apply Hf; left).
  apply IH. intros y s' Hy. apply Hf. by right.
Qed.

(** ** Generation *)

Lemma set_files_id s : set_files (files s) s = s.
Proof. by destruct s. Qed.

Lemma known_os_images : known_os images.
Proof. unfold known_os. cbv [records images mbind list_bind fmap list_fmap app fst]. repeat constructor; by eexists. Qed.

Section generation.
Variable render : string → pydict → string.
Variables (w : world) (args : Args).

Lemma generate_one_ok tpl os img s :
  template_file w = Some tpl →
  is_Some (dict_get os_base_vars os) →
  generate_one render w args os img s
  = (Ok tt, gen_step render tpl args (os, img) s).
Proof.
  intros Htpl [vars Hvars].
  unfold generate_one, gen_step, selected, rendering; cbn [fst snd].
  destruct (bool_decide (os ∈ opt_os args)); [|done].
  destruct (bool_decide (arch img ∈ opt_arch args)); [|done].
  cbn [negb andb]. erewrite bind_ok by reflexivity.
  unfold subscript, get_template. rewrite Hvars, Htpl.
  done.
Qed.

Lemma generate_one_missing os img s :
  template_file w = None →
  is_Some (dict_get os_base_vars os) →
  generate_one render w args os img s
  = (if selected args (os, img)
     then Raise (TemplateNotFound "Dockerfile.template") else Ok tt, s).
Proof.
  intros Htpl [vars Hvars].
  unfold generate_one, selected; cbn [fst snd].
  destruct (bool_decide (os ∈ opt_os args)); [|done].
  destruct (bool_decide (arch img ∈ opt_arch args)); [|done].
  cbn [negb andb]. erewrite bind_ok by reflexivity.
  unfold subscript, get_template. rewrite Hvars, Htpl.
  done.
Qed.

(** The two loops visit the records of the table one after the other. *)
Lemma generate_loops tbl s :
  for_ tbl (λ '(os, archs), for_ archs (generate_one render w args os)) s
  = for_ (records tbl) (λ r, generate_one render w args r.1 r.2) s.
Proof.
  unfold records. rewrite for_bind. apply for_ext.
  intros [os archs] s'. by rewrite for_fmap.
Qed.

Lemma gen_steps tpl rs s :
  foldl (λ s r, gen_step render tpl args r s) s rs
  = set_files (written render tpl (g_version s)
                 (filter (λ r, selected args r = true) rs) (files s)) s.
Proof.
  revert s. induction rs as [|r rs IH]; intros s.
  { simpl. by rewrite set_files_id. }
  simpl. rewrite IH. unfold gen_step. rewrite filter_cons.
  destruct (selected args r) eqn:Hsel.
  - by rewrite decide_True.
  - by rewrite decide_False.
Qed.

Lemma generate_records_ok tpl rs s :
  template_file w = Some tpl →
  Forall (λ r : string * image, is_Some (dict_get os_base_vars r.1)) rs →
  for_ rs (λ r, generate_one render w args r.1 r.2) s
  = (Ok tt, set_files (written render tpl (g_version s)
                         (filter (λ r, selected args r = true) rs) (files s)) s).
Proof.
  intros Htpl Hos. rewrite <- gen_steps. apply for_total.
  intros [os img] s' Hin. apply generate_one_ok; [done|].
  by apply (proj1 (Forall_forall _ _) Hos (os, img)).
Qed.

Lemma generate_records_missing rs s :
  template_file w = None →
  Forall (λ r : string * image, is_Some (dict_get os_base_vars r.1)) rs →
  for_ rs (λ r, generate_one render w args r.1 r.2) s
  = (if existsb (selected args) rs
     then Raise (TemplateNotFound "Dockerfile.template") else Ok tt, s).
Proof.
  intros Htpl Hos. induction Hos as [|[os img] rs Hr Hrs IH]; [done|].
  simpl. rewrite bind_unfold, generate_one_missing by done.
  by destruct (selected args (os, img)).
Qed.

(** [generate_dockerfiles] when it is not skipped and the template exists. *)
Lemma generate_dockerfiles_ok tpl s :
  opt_no_generate args = false →
  template_file w = Some tpl →
  known_os (g_images s) →
  generate_dockerfiles render w args s
  = (Ok tt, set_files (written render tpl (g_version s)
                         (selected_records args (g_images s)) (files s)) s).
Proof.
  intros Hgen Htpl Hos. unfold generate_dockerfiles. rewrite Hgen.
  erewrite bind_ok by reflexivity.
  rewrite generate_loops. by apply generate_records_ok.
Qed.

Lemma generate_dockerfiles_missing s :
  opt_no_generate args = false →
  template_file w = None →
  known_os (g_images s) →
  generate_dockerfiles render w args s
  = (if existsb (selected args) (records (g_images s))
     then Raise (TemplateNotFound "Dockerfile.template") else Ok tt, s).
Proof.
  intros Hgen Htpl Hos. unfold generate_dockerfiles. rewrite Hgen.
  erewrite bind_ok by reflexivity.
  rewrite generate_loops. by apply generate_records_missing.
Qed.

Lemma generate_dockerfiles_skipped s :
  opt_no_generate args = true →
  generate_dockerfiles render w args s
  = (Ok tt, set_console
              (console s ++ [" ::: Skipping Dockerfile generation" +:+ nl]) s).
Proof. intros Hgen. unfold generate_dockerfiles. by rewrite Hgen. Qed.
End generation.

(** ** Building *)

Lemma ran_refl s : ran [] s s.
Proof. unfold ran. by rewrite app_nil_r. Qed.

Lemma ran_trans c1 c2 s1 s2 s3 :
  ran c1 s1 s2 → ran c2 s2 s3 → ran (c1 ++ c2) s1 s3.
Proof.
  intros (Hv1 & Hi1 & Hf1 & Hs1 & Hc1) (Hv2 & Hi2 & Hf2 & Hs2 & Hc2).
  unfold ran. rewrite Hv2, Hi2, Hf2, Hs2, Hs1, (assoc_L (++)).
  repeat split; try done. by etrans.
Qed.

Lemma ran_console out s : ran [] s (set_console (console s ++ out) s).
Proof.
  unfold ran; simpl. rewrite app_nil_r. repeat split. by apply prefix_app_r.
Qed.

Lemma for_write_stdout l s :
  for_ l write_stdout s = (Ok tt, set_console (console s ++ l) s).
Proof.
  revert s. induction l as [|x l IH]; intros s.
  { simpl. rewrite app_nil_r. by destruct s. }
  simpl. erewrite bind_ok by reflexivity. rewrite IH. simpl.
  by rewrite <- (assoc_L (++)).
Qed.

Lemma run_and_stream_command_output_spec w command args s :
  run_and_stream_command_output w command args s
  = (Ok tt, set_console
              (console s ++ run_output w args (length (spawned s)) command)
              (set_spawned (spawned s ++ [py_split command]) s)).
Proof.
  unfold run_and_stream_command_output, run_output.
  erewrite bind_ok by reflexivity. erewrite bind_ok by reflexivity.
  cbn [set_console set_spawned g_version g_images files console spawned].
  destruct (opt_v args).
  - erewrite bind_ok by apply for_write_stdout.
    destruct (bool_decide _); unfold print, write_stdout;
      rewrite ?bind_unfold; unfold mret, M_ret, set_console, set_spawned;
      cbn [g_version g_images files console spawned];
      do 2 f_equal; rewrite <- ?(assoc_L (++)); simpl; by rewrite ?app_nil_r.
  - erewrite bind_ok by reflexivity.
    destruct (bool_decide _); unfold print, write_stdout;
      rewrite ?bind_unfold; unfold mret, M_ret, set_console, set_spawned;
      cbn [g_version g_images files console spawned];
      do 2 f_equal; rewrite <- ?(assoc_L (++)); simpl; by rewrite ?app_nil_r.
Qed.

(** After a process with a status other than 0 the two error lines are the
    last thing printed. *)
Lemma run_reports_failure w command args s :
  returncode (popen w (length (spawned s)) (py_split command)) ≠ 0%Z →
  ∃ s' out, run_and_stream_command_output w command args s = (Ok tt, s') ∧
    spawned s' = spawned s ++ [py_split command] ∧
    console s' = console s ++ out
                 ++ ["     ::: Error running" +:+ nl; "None" +:+ nl].
Proof.
  intros Hrc. eexists.
  exists (["Running " +:+ command +:+ nl]
          ++ if opt_v args
             then streamed (popen w (length (spawned s)) (py_split command))
             else []).
  split; [apply run_and_stream_command_output_spec|]. split; [done|].
  unfold run_output. cbn [set_console console].
  rewrite bool_decide_eq_true_2 by done.
  by rewrite <- !(assoc_L (++)).
Qed.

Section does.
Variable v : string.

Lemma does_ret : does v (mret tt) [].
Proof. intros s _. exists s. split; [done | apply ran_refl]. Qed.

Lemma does_write_stdout x : does v (write_stdout x) [].
Proof. intros s _. eexists. split; [done | apply ran_console]. Qed.

Lemma does_print x : does v (print x) [].
Proof. apply does_write_stdout. Qed.

Lemma does_seq m k c1 c2 :
  does v m c1 → does v k c2 → does v (m;; k) (c1 ++ c2).
Proof.
  intros Hm Hk s Hs. destruct (Hm s Hs) as (s1 & Hms & Hr1).
  destruct (Hk s1) as (s2 & Hks & Hr2).
  { destruct Hr1 as [-> _]. done. }
  exists s2. split; [by erewrite bind_ok | by eapply ran_trans].
Qed.

Lemma does_get_version (k : string → M unit) c :
  does v (k v) c → does v (get_version ≫= k) c.
Proof.
  intros Hk s Hs. destruct (Hk s Hs) as (s' & Hks & Hr).
  exists s'. split; [|done].
  erewrite bind_ok by reflexivity. by rewrite Hs.
Qed.

Lemma does_run w command args :
  does v (run_and_stream_command_output w command args) [py_split command].
Proof.
  intros s _. eexists. split; [apply run_and_stream_command_output_spec|].
  unfold ran; simpl. repeat split. by apply prefix_app_r.
Qed.

Lemma does_for {A} (l : list A) (f : A → M unit) (c : A → list (list string)) :
  (∀ x, does v (f x) (c x)) → does v (for_ l f) (l ≫= c).
Proof.
  intros Hf. induction l as [|x l IH]; [apply does_ret|].
  simpl. by apply does_seq.
Qed.

Lemma does_build w os arch args :
  does v (build w "pihole" os arch args) (commands_of v args (os, arch)).
Proof.
  unfold build. apply does_get_version.
  apply (does_seq _ _ []); [apply does_print|].
  apply (does_seq _ _ []); [apply does_print|].
  unfold commands_of. change (?x :: ?l) with ([x] ++ l).
  apply does_seq; [apply does_run|].
  apply (does_seq _ _ []).
  { destruct (opt_v args); [apply does_print | apply does_ret]. }
  destruct (hub_tag_truthy args); [|apply does_ret].
  apply (does_seq _ _ []); [apply does_print | apply does_run].
Qed.

Lemma list_prod_bind {A B C} (l1 : list A) (l2 : list B) (f : A * B → list C) :
  list_prod l1 l2 ≫= f = l1 ≫= (λ x, l2 ≫= (λ y, f (x, y))).
Proof.
  induction l1 as [|x l1 IH]; [done|].
  simpl. rewrite bind_app, IH. f_equal. clear IH.
  induction l2 as [|y l2 IH2]; [done|]. csimpl. by f_equal.
Qed.

Lemma does_build_dockerfiles w args :
  does v (build_dockerfiles w args) (planned v args).
Proof.
  unfold build_dockerfiles, planned.
  destruct (opt_no_build args); [apply does_print|].
  rewrite list_prod_bind. apply does_for. intros os.
  apply does_for. intros arch. apply does_build.
Qed.
End does.

(** ** A whole run *)

Section run.
Variable render : string → pydict → string.
Variable repr_args : Args → string.
Variables (w : world) (args : Args).

(** [main] from any state whose table has known OS names: either the
    generation raises for the missing template, before anything is written
    or started, or [main] ends and leaves the generated files and the
    planned processes. *)
Lemma main_spec s :
  known_os (g_images s) →
  ∃ s', g_images s' = g_images s ∧ console s `prefix_of` console s' ∧
    if gen_fails w args (g_images s)
    then main render repr_args w args s
         = (Raise (TemplateNotFound "Dockerfile.template"), s') ∧
         files s' = files s ∧ spawned s' = spawned s
    else main render repr_args w args s = (Ok tt, s') ∧
         g_version s' = g_version s ∧
         files s' = generated render w args (g_version s) (g_images s) (files s) ∧
         spawned s' = spawned s ++ planned (g_version s) args.
Proof.
  intros Hos. unfold main.
  assert (does (g_version s)
            (if opt_v args then print (repr_args args) else mret tt) []) as H1.
  { destruct (opt_v args); [apply does_print | apply does_ret]. }
  destruct (H1 s eq_refl) as (s1 & Hs1 & Hv1 & Hi1 & Hf1 & Hp1 & Hc1).
  rewrite app_nil_r in Hp1.
  erewrite bind_ok by exact Hs1. rewrite <- Hi1 in Hos |- *.
  unfold gen_fails, generated.
  destruct (opt_no_generate args) eqn:Hgen; cbn [negb andb].
  - (* generation skipped *)
    erewrite bind_ok by by apply generate_dockerfiles_skipped.
    destruct (does_build_dockerfiles (g_version s) w args
                (set_console (console s1 ++
                   [" ::: Skipping Dockerfile generation" +:+ nl]) s1))
      as (s3 & Hs3 & Hv3 & Hi3 & Hf3 & Hp3 & Hc3); [done|].
    exists s3. rewrite Hi3. split; [done|]. split.
    { etrans; [exact Hc1|]. etrans; [|exact Hc3]. by apply prefix_app_r. }
    rewrite Hs3, Hv3, Hf3, Hp3. simpl. by rewrite Hv1, Hf1, Hp1.
  - destruct (template_file w) as [tpl|] eqn:Htpl; cbn [andb].
    + (* the template exists *)
      erewrite bind_ok by by apply generate_dockerfiles_ok.
      destruct (does_build_dockerfiles (g_version s) w args
                  (set_files (written render tpl (g_version s1)
                     (selected_records args (g_images s1)) (files s1)) s1))
        as (s3 & Hs3 & Hv3 & Hi3 & Hf3 & Hp3 & Hc3); [done|].
      exists s3. rewrite Hi3. split; [done|]. split.
      { etrans; [exact Hc1|]. exact Hc3. }
      rewrite Hs3, Hv3, Hf3, Hp3. simpl. by rewrite Hv1, Hf1, Hp1.
    + (* the template is missing *)
      rewrite bind_unfold, generate_dockerfiles_missing by done.
      destruct (existsb (selected args) (records (g_images s1))).
      * exists s1. by rewrite Hf1, Hp1.
      * destruct (does_build_dockerfiles (g_version s) w args s1)
          as (s3 & Hs3 & Hv3 & Hi3 & Hf3 & Hp3 & Hc3); [done|].
        exists s3. rewrite Hi3. split; [done|]. split; [by etrans|].
        rewrite Hs3, Hv3, Hf3, Hp3. by rewrite Hv1, Hf1, Hp1.
Qed.

Lemma program_no_version :
  version_file w = None →
  program render repr_args w args = (Raise (FileNotFoundError "VERSION"), None).
Proof. intros Hv. unfold program, module_init, load_version. by rewrite Hv. Qed.

Lemma program_spec raw :
  version_file w = Some raw →
  let v := py_replace "release/" "release-" (py_strip raw) in
  ∃ s', g_images s' = images ∧
    if gen_fails w args images
    then program render repr_args w args
         = (Raise (TemplateNotFound "Dockerfile.template"), Some s') ∧
         files s' = ∅ ∧ spawned s' = []
    else program render repr_args w args = (Ok tt, Some s') ∧
         g_version s' = v ∧
         files s' = generated render w args v images ∅ ∧
         spawned s' = planned v args.
Proof.
  intros Hv v. unfold program, module_init, load_version. rewrite Hv.
  set (s0 := {| g_version := _ |}).
  destruct (main_spec s0 known_os_images) as (s' & Hi & _ & H).
  exists s'. split; [done|]. change (g_images s0) with images in H.
  destruct (gen_fails w args images).
  - destruct H as (-> & -> & ->). done.
  - destruct H as (-> & -> & -> & ->). done.
Qed.
End run.

(** ** Occurrences and replacement *)

Section occurrences.
Context {A : Type} `{!EqDecision A}.
Implicit Types p s old new : list A.

Lemma infix_of_length p s : infix_of p s → length p ≤ length s.
Proof. intros (a & b & ->). rewrite !length_app. lia. Qed.

Lemma infix_of_cons p c s :
  infix_of p (c :: s) → p `prefix_of` (c :: s) ∨ infix_of p s.
Proof.
  intros ([|c' a] & b & Heq).
  - left. exists b. done.
  - right. exists a, b. by simplify_eq/=.
Qed.

Lemma infix_b_spec p s : infix_b p s = true ↔ infix_of p s.
Proof.
  induction s as [|c s IH]; simpl.
  - rewrite orb_false_r, bool_decide_eq_true. split.
    + intros [k Hk]. exists [], k. done.
    + intros ([|] & b & Heq); [by exists b | done].
  - rewrite orb_true_iff, bool_decide_eq_true, IH. split.
    + intros [[k Hk]|(a & b & ->)]; [by exists [], k | by exists (c :: a), b].
    + apply infix_of_cons.
Qed.

(** An occurrence cannot cross a character that it does not hold. *)
Lemma infix_of_split p a d b :
  d ∉ p → infix_of p (a ++ d :: b) → infix_of p a ∨ infix_of p b.
Proof.
  intros Hd (a' & b' & Heq).
  apply app_eq_inv in Heq as [(k & -> & Hk)|(k & -> & Hk)].
  - apply app_eq_inv in Hk as [(k2 & -> & Hk2)|(k2 & -> & ->)].
    + destruct k2 as [|d' k2].
      * left. exists a', []. by rewrite !app_nil_r.
      * simplify_eq/=. destruct Hd. set_solver.
    + left. by exists a', k2.
  - destruct k as [|d' k].
    + destruct p as [|d' p]; simplify_eq/=.
      * left. exists a, []. by rewrite app_nil_r.
      * destruct Hd. set_solver.
    + simplify_eq/=. right. by exists k, b'.
Qed.

Lemma prefix_of_split p a d b :
  d ∉ p → p `prefix_of` (a ++ d :: b) → p `prefix_of` a.
Proof.
  intros Hd [k Heq].
  apply app_eq_inv in Heq as [(k' & -> & _)|(k' & -> & Hk)].
  - by exists k'.
  - destruct k' as [|d' k'].
    + rewrite app_nil_r. done.
    + simplify_eq/=. destruct Hd. set_solver.
Qed.

Lemma replace_list_nonempty old new s :
  old ≠ [] → replace_list old new s = replace_fuel (length s) old new s.
Proof. by destruct old. Qed.

Lemma replace_fuel_enough old new n1 n2 s :
  old ≠ [] → length s ≤ n1 → length s ≤ n2 →
  replace_fuel n1 old new s = replace_fuel n2 old new s.
Proof.
  intros Hold.
  assert (0 < length old) by (destruct old; [done | simpl; lia]).
  revert n2 s. induction n1 as [|n1 IH]; intros n2 s Hlen1 Hlen2.
  { destruct s; [by destruct n2 | simpl in Hlen1; lia]. }
  destruct s as [|c s]; [by destruct n2|].
  destruct n2 as [|n2]; [simpl in Hlen2; lia|].
  cbn [replace_fuel]. cbn [length] in Hlen1, Hlen2.
  destruct (bool_decide _).
  - f_equal. apply IH; rewrite length_drop; cbn [length]; lia.
  - f_equal. apply IH; lia.
Qed.

(** A text without [old] is left as it is. *)
Lemma replace_fuel_clean old new n s :
  ¬ infix_of old s → replace_fuel n old new s = s.
Proof.
  revert s. induction n as [|n IH]; intros s Hclean; [done|].
  destruct s as [|c s]; [done|]. cbn [replace_fuel].
  rewrite bool_decide_eq_false_2.
  - f_equal. apply IH. intros (a & b & ->). apply Hclean. by exists (c :: a), b.
  - intros [k Hk]. apply Hclean. by exists [], k.
Qed.

Lemma replace_fuel_step old new n s :
  old ≠ [] → old `prefix_of` s →
  replace_fuel (S n) old new s = new ++ replace_fuel n old new (drop (length old) s).
Proof.
  intros Hold Hpre. destruct s as [|c s].
  - apply prefix_nil_inv in Hpre. done.
  - cbn [replace_fuel]. by rewrite bool_decide_eq_true_2.
Qed.

(** A text that starts with [old] starts with [new] afterwards, and the
    rest is replaced in the same way. *)
Lemma replace_list_head old new t :
  old ≠ [] → replace_list old new (old ++ t) = new ++ replace_list old new t.
Proof.
  intros Hold.
  assert (0 < length old) by (destruct old; [done | simpl; lia]).
  rewrite !replace_list_nonempty by done.
  assert (length (old ++ t) = S (length (old ++ t) - 1)) as ->
    by (rewrite length_app; lia).
  rewrite replace_fuel_step by (done || by apply prefix_app_r).
  rewrite drop_app_length. f_equal.
  apply replace_fuel_enough; rewrite ?length_app; [done|lia|lia].
Qed.

Section replace.
Variables (old m : list A) (d : A).
Hypothesis old_nonempty : old ≠ [].
Hypothesis m_prefix : m `prefix_of` old.
Hypothesis m_shorter : length m < length old.
Hypothesis d_fresh : d ∉ old.

(** What starts the replaced text and holds no [d] starts the text. *)
Lemma replace_fuel_prefix n s q :
  d ∉ q → q `prefix_of` replace_fuel n old (m ++ [d]) s → q `prefix_of` s.
Proof.
  revert s q. induction n as [|n IH]; intros s q Hq Hpre; [done|].
  destruct s as [|c s]; [done|]. simpl in Hpre.
  destruct (bool_decide _) eqn:Hold.
  - apply bool_decide_eq_true in Hold.
    rewrite <- (assoc_L (++)) in Hpre. apply prefix_of_split in Hpre; [|done].
    by do 2 (etrans; [|done]).
  - destruct q as [|c' q]; [apply prefix_nil|].
    apply prefix_cons_inv_1 in Hpre as Hc. subst c'.
    apply prefix_cons_inv_2 in Hpre. apply prefix_cons.
    apply (IH s q); [set_solver | done].
Qed.

(** The replaced text holds no occurrence of [old]. *)
Lemma replace_fuel_no_old n s :
  length s ≤ n → ¬ infix_of old (replace_fuel n old (m ++ [d]) s).
Proof.
  assert (0 < length old) by (destruct old; [done | simpl; lia]).
  revert s. induction n as [|n IH]; intros s Hlen Hin.
  { destruct s; [|simpl in Hlen; lia]. apply infix_of_length in Hin.
    simpl in Hin. lia. }
  destruct s as [|c s]; simpl in *.
  { apply infix_of_length in Hin. simpl in Hin. lia. }
  destruct (bool_decide _) eqn:Hold.
  - rewrite <- (assoc_L (++)) in Hin.
    apply infix_of_split in Hin as [Hin|Hin]; [| |done].
    + apply infix_of_length in Hin. lia.
    + apply IH in Hin; [done|]. rewrite length_drop. simpl. lia.
  - apply bool_decide_eq_false in Hold.
    apply infix_of_cons in Hin as [Hpre|Hin].
    + assert (∃ c' old', old = c' :: old') as (c' & old' & Heq)
        by (destruct old; [done | eauto]).
      rewrite Heq in Hpre at 1.
      apply prefix_cons_inv_1 in Hpre as Hc. subst c'.
      apply prefix_cons_inv_2 in Hpre.
      apply replace_fuel_prefix in Hpre.
      * destruct Hold. rewrite Heq. by apply prefix_cons.
      * intros Hd. apply d_fresh. rewrite Heq. by right.
    + apply IH in Hin; [done | lia].
Qed.

Lemma replace_list_no_old s : ¬ infix_of old (replace_list old (m ++ [d]) s).
Proof.
  rewrite replace_list_nonempty by done. by apply replace_fuel_no_old.
Qed.
End replace.
End occurrences.

(** ** Strings *)

Lemma chars_app (a b : string) : chars (a +:+ b) = chars a ++ chars b.
Proof. induction a as [|c a IH]; [done|]. simpl. by rewrite IH. Qed.

Lemma chars_text (l : list ascii) : chars (text l) = l.
Proof. apply String.list_ascii_of_string_of_list_ascii. Qed.

Lemma dockerfile_name_inj a b : dockerfile_name a = dockerfile_name b → a = b.
Proof. unfold dockerfile_name. simpl. by intros [=]. Qed.

(** ** The files of a generation *)

Section files.
Variable render : string → pydict → string.
Variables (tpl version : string).

Lemma written_snoc rs r fs :
  written render tpl version (rs ++ [r]) fs
  = <[dockerfile_name (arch r.2) := rendering render tpl version r]>
      (written render tpl version rs fs).
Proof. unfold written. by rewrite foldl_app. Qed.

Lemma dom_written rs fs :
  dom (written render tpl version rs fs)
  = dom fs ∪ list_to_set ((λ r, dockerfile_name (arch r.2)) <$> rs).
Proof.
  revert fs. induction rs as [|r rs IH]; intros fs.
  { simpl. by rewrite (right_id_L ∅ (∪)). }
  change (written render tpl version (r :: rs) fs)
    with (written render tpl version rs
            (<[dockerfile_name (arch r.2) := rendering render tpl version r]> fs)).
  rewrite IH, dom_insert_L, fmap_cons, list_to_set_cons.
  by rewrite (comm_L (∪) _ (dom fs)), (assoc_L (∪)).
Qed.

(** A file holds what the last record with its architecture rendered. *)
Lemma written_lookup rs fs a :
  written render tpl version rs fs !! dockerfile_name a
  = match last (filter (λ r, arch r.2 = a) rs) with
    | Some r => Some (rendering render tpl version r)
    | None => fs !! dockerfile_name a
    end.
Proof.
  induction rs as [|r rs IH] using rev_ind; [done|].
  rewrite written_snoc, filter_app, filter_cons, filter_nil.
  destruct (decide (arch r.2 = a)) as [<-|Hne].
  - by rewrite lookup_insert_eq, last_snoc.
  - rewrite lookup_insert_ne, app_nil_r; [done|].
    intros ?%dockerfile_name_inj. done.
Qed.
End files.

Lemma selected_spec args r :
  selected args r = true ↔ r.1 ∈ opt_os args ∧ arch r.2 ∈ opt_arch args.
Proof. unfold selected. by rewrite andb_true_iff, !bool_decide_eq_true. Qed.

Lemma names_of_selected args (rs : list (string * image)) :
  (λ r, dockerfile_name (arch r.2)) <$> filter (λ r, selected args r = true) rs
  = (λ p, dockerfile_name p.2) <$>
      filter (λ p, p.1 ∈ opt_os args ∧ p.2 ∈ opt_arch args)
             ((λ r, (r.1, arch r.2)) <$> rs).
Proof.
  induction rs as [|r rs IH]; [done|].
  csimpl. rewrite !filter_cons.
  destruct (decide (selected args r = true)) as [Hs|Hs];
    destruct (decide (_ ∧ _)) as [Hp|Hp]; csimpl; rewrite ?IH; try done; exfalso.
  - by apply Hp, selected_spec.
  - by apply Hs, selected_spec.
Qed.

(** ** The processes of a build *)

Lemma build_argv_is_build v args p : is_docker "build" (build_argv v args p) = true.
Proof. unfold build_argv, time_of, no_cache_of. by destruct (opt_t args), (opt_no_cache args). Qed.

Lemma build_argv_is_not_tag v args p : is_docker "tag" (build_argv v args p) = false.
Proof. unfold build_argv, time_of, no_cache_of. by destruct (opt_t args), (opt_no_cache args). Qed.

Lemma tag_argv_is_tag v args p : is_docker "tag" (tag_argv v args p) = true.
Proof. unfold tag_argv, time_of. by destruct (opt_t args). Qed.

Lemma tag_argv_is_not_build v args p : is_docker "build" (tag_argv v args p) = false.
Proof. unfold tag_argv, time_of. by destruct (opt_t args). Qed.

Lemma build_commands v args (ps : list (string * string)) :
  filter (λ argv, is_docker "build" argv = true) (ps ≫= commands_of v args)
  = build_argv v args <$> ps.
Proof.
  induction ps as [|p ps IH]; [done|].
  rewrite bind_cons, fmap_cons, filter_app, IH. unfold commands_of.
  rewrite filter_cons, decide_True by apply build_argv_is_build.
  destruct (hub_tag_truthy args); [|done].
  rewrite filter_cons, decide_False; [done|].
  by rewrite tag_argv_is_not_build.
Qed.

Lemma tag_commands v args (ps : list (string * string)) :
  filter (λ argv, is_docker "tag" argv = true) (ps ≫= commands_of v args)
  = if hub_tag_truthy args then tag_argv v args <$> ps else [].
Proof.
  induction ps as [|p ps IH]; [by destruct (hub_tag_truthy args)|].
  rewrite bind_cons, filter_app, IH. unfold commands_of.
  rewrite filter_cons, decide_False by by rewrite build_argv_is_not_tag.
  destruct (hub_tag_truthy args); [|done].
  by rewrite filter_cons, decide_True by apply tag_argv_is_tag.
Qed.

(** ** The claims *)

(** C1. In a run that does not skip the generation (and finds [VERSION] and
    the template), the set of the names of the files written is the set of
    the names [Dockerfile_<arch>] of the (OS, arch) pairs of the table
    [images] whose OS is among [--os] and whose arch is among [--arch]. *)
Theorem generated_names_are_the_selected_pairs
    (render : string → pydict → string) (repr_args : Args → string)
    (w : world) (args : Args) (raw tpl : string) :
  version_file w = Some raw →
  template_file w = Some tpl →
  opt_no_generate args = false →
  ∃ s, program render repr_args w args = (Ok tt, Some s) ∧
       dom (files s) = expected_names images (opt_os args) (opt_arch args).
Proof.
  intros Hv Htpl Hgen.
  destruct (program_spec render repr_args w args raw Hv) as (s & _ & H).
  unfold gen_fails, generated in H. rewrite Hgen, Htpl in H. cbn [negb andb] in H.
  destruct H as (Hrun & _ & Hfiles & _). exists s. split; [done|].
  rewrite Hfiles, dom_written, dom_empty_L, (left_id_L ∅ (∪)).
  unfold expected_names, selected_records, pairs. by rewrite names_of_selected.
Qed.

Lemma generated_names_witness :
  ∃ s, program sample_render sample_repr sample_world default_args = (Ok tt, Some s) ∧
       dom (files s)
       = expected_names images (opt_os default_args) (opt_arch default_args).
Proof.
  exact (generated_names_are_the_selected_pairs sample_render sample_repr
           sample_world default_args _ _ eq_refl eq_refl eq_refl).
Defined.

(** C2. A build phase that is not skipped returns normally after starting,
    among its processes and in order, one [docker build] for each element of
    the cross product of the [--os] list and the [--arch] list; and so does a
    run that reaches its build phase. *)
Theorem one_build_per_selected_pair
    (render : string → pydict → string) (repr_args : Args → string)
    (w : world) (args : Args) :
  opt_no_build args = false →
  (∀ s, ∃ s' cmds,
     build_dockerfiles w args s = (Ok tt, s') ∧
     spawned s' = spawned s ++ cmds ∧
     filter (λ argv, is_docker "build" argv = true) cmds
     = build_argv (g_version s) args <$> list_prod (opt_os args) (opt_arch args) ∧
     length (filter (λ argv, is_docker "build" argv = true) cmds)
     = length (opt_os args) * length (opt_arch args)) ∧
  (∀ raw, version_file w = Some raw → gen_fails w args images = false →
     ∃ s, program render repr_args w args = (Ok tt, Some s) ∧
       filter (λ argv, is_docker "build" argv = true) (spawned s)
       = build_argv (g_version s) args <$> list_prod (opt_os args) (opt_arch args)).
Proof.
  intros Hbuild. split.
  - intros s.
    destruct (does_build_dockerfiles (g_version s) w args s eq_refl)
      as (s' & Hrun & _ & _ & _ & Hsp & _).
    exists s', (planned (g_version s) args). split; [done|]. split; [done|].
    unfold planned. rewrite Hbuild, build_commands. split; [done|].
    by rewrite length_fmap, length_prod.
  - intros raw Hv Hgen.
    destruct (program_spec render repr_args w args raw Hv) as (s & _ & H).
    rewrite Hgen in H. destruct H as (Hrun & Hver & _ & Hsp).
    exists s. split; [done|].
    rewrite Hsp, Hver. unfold planned. rewrite Hbuild. apply build_commands.
Qed.

Lemma one_build_per_selected_pair_witness :
  (∃ s' cmds,
     build_dockerfiles sample_world default_args sample_state = (Ok tt, s') ∧
     spawned s' = spawned sample_state ++ cmds ∧
     filter (λ argv, is_docker "build" argv = true) cmds
     = build_argv (g_version sample_state) default_args <$>
         list_prod (opt_os default_args) (opt_arch default_args) ∧
     length (filter (λ argv, is_docker "build" argv = true) cmds)
     = length (opt_os default_args) * length (opt_arch default_args)) ∧
  (∃ s, program sample_render sample_repr sample_world default_args = (Ok tt, Some s) ∧
     filter (λ argv, is_docker "build" argv = true) (spawned s)
     = build_argv (g_version s) default_args <$>
         list_prod (opt_os default_args) (opt_arch default_args)).
Proof.
  split.
  - exact (proj1 (one_build_per_selected_pair sample_render sample_repr
                    sample_world default_args eq_refl) sample_state).
  - exact (proj2 (one_build_per_selected_pair sample_render sample_repr
                    sample_world default_args eq_refl) _ eq_refl eq_refl).
Defined.

(** C3. The tag command is optional.  A build phase that is not skipped
    starts one [docker tag] for every pair it builds when [args['--hub_tag']]
    is a non-empty string, and none otherwise.  For the arguments that docopt
    makes of a command line that is: when the user gave [--hub_tag] a value;
    without the flag [args['--hub_tag']] is [None] and no [docker tag] is
    started. *)
Theorem tag_exactly_when_hub_tag_given
    (w : world) (c : command_line) (args : Args) :
  docopt c = Some args →
  opt_no_build args = false →
  hub_tag_truthy args = given_hub_tag c ∧
  (cl_hub_tag c = None → opt_hub_tag args = None) ∧
  (∀ s, ∃ s' cmds,
     build_dockerfiles w args s = (Ok tt, s') ∧
     spawned s' = spawned s ++ cmds ∧
     filter (λ argv, is_docker "tag" argv = true) cmds
     = (if given_hub_tag c
        then tag_argv (g_version s) args <$> list_prod (opt_os args) (opt_arch args)
        else []) ∧
     (cl_hub_tag c = None → Forall (λ argv, is_docker "tag" argv = false) cmds)).
Proof.
  intros Hdoc Hbuild.
  assert (opt_hub_tag args = if cl_hub_tag c is Some t then Some t else None) as Htag.
  { unfold docopt in Hdoc. destruct (_ && _); [done|].
    injection Hdoc as <-. simpl. by destruct (cl_hub_tag c). }
  assert (hub_tag_truthy args = given_hub_tag c) as Htruthy.
  { unfold hub_tag_truthy, given_hub_tag. rewrite Htag. by destruct (cl_hub_tag c). }
  split; [done|]. split. { intros Hnone. by rewrite Htag, Hnone. }
  intros s.
  destruct (does_build_dockerfiles (g_version s) w args s eq_refl)
    as (s' & Hrun & _ & _ & _ & Hsp & _).
  exists s', (planned (g_version s) args). split; [done|]. split; [done|].
  unfold planned. rewrite Hbuild, tag_commands, Htruthy. split; [done|].
  intros Hnone. unfold commands_of. rewrite Htruthy.
  unfold given_hub_tag. rewrite Hnone.
  induction (list_prod (opt_os args) (opt_arch args)) as [|p ps IH]; [done|].
  rewrite bind_cons. constructor; [apply build_argv_is_not_tag | done].
Qed.

Lemma tag_exactly_when_hub_tag_given_witness :
  (hub_tag_truthy default_args = given_hub_tag no_options ∧
   (cl_hub_tag no_options = None → opt_hub_tag default_args = None) ∧
   (∀ s, ∃ s' cmds,
      build_dockerfiles sample_world default_args s = (Ok tt, s') ∧
      spawned s' = spawned s ++ cmds ∧
      filter (λ argv, is_docker "tag" argv = true) cmds
      = (if given_hub_tag no_options
         then tag_argv (g_version s) default_args <$>
                list_prod (opt_os default_args) (opt_arch default_args)
         else []) ∧
      (cl_hub_tag no_options = None →
       Forall (λ argv, is_docker "tag" argv = false) cmds))) ∧
  (∃ args, docopt hub_tag_option = Some args ∧
     ∃ s' cmds,
       build_dockerfiles sample_world args sample_state = (Ok tt, s') ∧
       spawned s' = spawned sample_state ++ cmds ∧
       filter (λ argv, is_docker "tag" argv = true) cmds
       = (if given_hub_tag hub_tag_option
          then tag_argv (g_version sample_state) args <$>
                 list_prod (opt_os args) (opt_arch args)
          else []) ∧
       (cl_hub_tag hub_tag_option = None →
        Forall (λ argv, is_docker "tag" argv = false) cmds)).
Proof.
  split.
  - exact (tag_exactly_when_hub_tag_given sample_world no_options default_args
             eq_refl eq_refl).
  - eexists. split; [reflexivity|].
    exact (proj2 (proj2 (tag_exactly_when_hub_tag_given sample_world hub_tag_option
                           _ eq_refl eq_refl)) sample_state).
Defined.

(** C4. With [--no-generate] the generation phase only prints its notice: no
    file is written.  With [--no-build] the build phase only prints its
    notice: no process is started. *)
Theorem skipped_phases_do_nothing
    (render : string → pydict → string) (w : world) (args : Args) (s : state) :
  (opt_no_generate args = true →
   ∃ s', generate_dockerfiles render w args s = (Ok tt, s') ∧
         files s' = files s ∧ spawned s' = spawned s ∧
         console s' = console s ++ [" ::: Skipping Dockerfile generation" +:+ nl]) ∧
  (opt_no_build args = true →
   ∃ s', build_dockerfiles w args s = (Ok tt, s') ∧
         files s' = files s ∧ spawned s' = spawned s ∧
         console s' = console s ++ [" ::: Skipping Dockerfile building" +:+ nl]).
Proof.
  split; intros Hskip.
  - eexists. split; [by apply generate_dockerfiles_skipped|done].
  - unfold build_dockerfiles. rewrite Hskip. by eexists.
Qed.

Lemma skipped_phases_witness :
  (∃ s', generate_dockerfiles sample_render sample_world no_generate_args
           sample_state = (Ok tt, s') ∧
         files s' = files sample_state ∧ spawned s' = spawned sample_state ∧
         console s' = console sample_state
                      ++ [" ::: Skipping Dockerfile generation" +:+ nl]) ∧
  (∃ s', build_dockerfiles sample_world no_build_args sample_state = (Ok tt, s') ∧
         files s' = files sample_state ∧ spawned s' = spawned sample_state ∧
         console s' = console sample_state
                      ++ [" ::: Skipping Dockerfile building" +:+ nl]).
Proof.
  split.
  - exact (proj1 (skipped_phases_do_nothing sample_render sample_world
                    no_generate_args sample_state) eq_refl).
  - exact (proj2 (skipped_phases_do_nothing sample_render sample_world
                    no_build_args sample_state) eq_refl).
Defined.

(** C5. A process that ends with a status other than 0 makes
    [run_and_stream_command_output] print its error lines and return
    normally; the result of the whole run, and with it the exit status of
    the script, is the same whatever the processes do, and is 0 when
    [VERSION] and the template are there. *)
Theorem failure_is_printed_not_returned
    (render : string → pydict → string) (repr_args : Args → string)
    (w : world) (args : Args) (command : string) (s : state) :
  (returncode (popen w (length (spawned s)) (py_split command)) ≠ 0%Z →
   ∃ s' out, run_and_stream_command_output w command args s = (Ok tt, s') ∧
     console s' = console s ++ out
                  ++ ["     ::: Error running" +:+ nl; "None" +:+ nl]) ∧
  (∀ w', version_file w' = version_file w → template_file w' = template_file w →
     (program render repr_args w' args).1 = (program render repr_args w args).1) ∧
  (∀ raw, version_file w = Some raw → gen_fails w args images = false →
     exit_status (program render repr_args w args).1 = 0%Z).
Proof.
  split; [|split].
  - intros Hrc.
    destruct (run_reports_failure w command args s Hrc) as (s' & out & Hrun & _ & Hout).
    by exists s', out.
  - intros w' Hv Htpl. destruct (version_file w) as [raw|] eqn:Hraw.
    + destruct (program_spec render repr_args w args raw Hraw) as (s1 & _ & H1).
      destruct (program_spec render repr_args w' args raw Hv) as (s2 & _ & H2).
      assert (gen_fails w' args images = gen_fails w args images) as Hgf
        by (unfold gen_fails; by rewrite Htpl).
      rewrite Hgf in H2. destruct (gen_fails w args images).
      * destruct H1 as [-> _], H2 as [-> _]. done.
      * destruct H1 as [-> _], H2 as [-> _]. done.
    + by rewrite !program_no_version.
  - intros raw Hraw Hgf.
    destruct (program_spec render repr_args w args raw Hraw) as (s1 & _ & H1).
    rewrite Hgf in H1. by destruct H1 as [-> _].
Qed.

Lemma failure_is_printed_witness :
  (∃ s' out, run_and_stream_command_output sample_world "docker tag a b"
               default_args sample_state = (Ok tt, s') ∧
     console s' = console sample_state ++ out
                  ++ ["     ::: Error running" +:+ nl; "None" +:+ nl]) ∧
  (program sample_render sample_repr quiet_world default_args).1
  = (program sample_render sample_repr sample_world default_args).1 ∧
  exit_status (program sample_render sample_repr sample_world default_args).1 = 0%Z.
Proof.
  pose proof (failure_is_printed_not_returned sample_render sample_repr
                sample_world default_args "docker tag a b" sample_state)
    as (Hprinted & Hsame & Hzero).
  split; [|split].
  - apply Hprinted. discriminate.
  - exact (Hsame quiet_world eq_refl eq_refl).
  - exact (Hzero _ eq_refl eq_refl).
Defined.

(** ** The table *)

Section keeps.
Lemma keeps_ret {A} (a : A) : keeps_images (mret a).
Proof. done. Qed.

Lemma keeps_raise {A} e : keeps_images (raise (A:=A) e).
Proof. done. Qed.

Lemma keeps_bind {A B} (m : M A) (k : A → M B) :
  keeps_images m → (∀ a, keeps_images (k a)) → keeps_images (m ≫= k).
Proof.
  intros Hm Hk s. rewrite bind_unfold. specialize (Hm s).
  destruct (m s) as [[a|e] s']; simpl in *; [|done].
  by rewrite Hk.
Qed.

Lemma keeps_for {A} (l : list A) (f : A → M unit) :
  (∀ x, keeps_images (f x)) → keeps_images (for_ l f).
Proof.
  intros Hf. induction l as [|x l IH]; [done|].
  simpl. by apply keeps_bind.
Qed.

Lemma keeps_write_stdout x : keeps_images (write_stdout x).
Proof. done. Qed.

Lemma keeps_run w command args :
  keeps_images (run_and_stream_command_output w command args).
Proof. intros s. by rewrite run_and_stream_command_output_spec. Qed.

Lemma keeps_generate_one render w args os img :
  keeps_images (generate_one render w args os img).
Proof.
  unfold generate_one. destruct (negb _); [done|]. destruct (negb _); [done|].
  apply keeps_bind; [done|]. intros v.
  apply keeps_bind. { unfold subscript. by destruct (dict_get _ _). }
  intros vars. apply keeps_bind; [|done].
  unfold get_template. by destruct (template_file w).
Qed.

Lemma keeps_generate render w args : keeps_images (generate_dockerfiles render w args).
Proof.
  unfold generate_dockerfiles. destruct (opt_no_generate args); [done|].
  apply keeps_bind; [done|]. intros tbl. apply keeps_for.
  intros [os archs]. apply keeps_for. intros img. apply keeps_generate_one.
Qed.

Lemma keeps_build w repo os arch args : keeps_images (build w repo os arch args).
Proof.
  unfold build. apply keeps_bind; [done|]. intros v.
  do 2 (apply keeps_bind; [done|]; intros _).
  apply keeps_bind; [apply keeps_run|]. intros _.
  apply keeps_bind. { by destruct (opt_v args). } intros _.
  destruct (hub_tag_truthy args); [|done].
  apply keeps_bind; [done|]. intros _. apply keeps_run.
Qed.

Lemma keeps_build_dockerfiles w args : keeps_images (build_dockerfiles w args).
Proof.
  unfold build_dockerfiles. destruct (opt_no_build args); [done|].
  apply keeps_for. intros os. apply keeps_for. intros arch. apply keeps_build.
Qed.

Lemma keeps_main render repr_args w args : keeps_images (main render repr_args w args).
Proof.
  unfold main. apply keeps_bind. { by destruct (opt_v args). } intros _.
  apply keeps_bind; [apply keeps_generate|]. intros _. apply keeps_build_dockerfiles.
Qed.
End keeps.

(** C8. The module body binds the table [images] once; generation, build,
    tagging (inside [build]) and the running of a process leave it as it is,
    also when they raise, and at the end of a run it is the table of lines
    52-92. *)
Theorem images_never_change
    (render : string → pydict → string) (repr_args : Args → string)
    (w : world) (args : Args) :
  (∀ s0, module_init w = Ok s0 → g_images s0 = images) ∧
  keeps_images (generate_dockerfiles render w args) ∧
  keeps_images (build_dockerfiles w args) ∧
  (∀ repo os arch, keeps_images (build w repo os arch args)) ∧
  (∀ command, keeps_images (run_and_stream_command_output w command args)) ∧
  (∀ s, (program render repr_args w args).2 = Some s → g_images s = images).
Proof.
  split.
  { intros s0. unfold module_init. destruct (load_version w); [|done].
    by intros [= <-]. }
  split; [apply keeps_generate|]. split; [apply keeps_build_dockerfiles|].
  split; [intros; apply keeps_build|]. split; [intros; apply keeps_run|].
  intros s. unfold program. destruct (module_init w) as [s0|e] eqn:Hinit; [|done].
  pose proof (keeps_main render repr_args w args s0) as Hkeep.
  destruct (main render repr_args w args s0) as [r s']. simpl in *.
  intros [= <-]. rewrite Hkeep.
  unfold module_init in Hinit. destruct (load_version w); [|done].
  by injection Hinit as <-.
Qed.

Lemma images_never_change_witness :
  g_images sample_state = images ∧
  g_images (main sample_render sample_repr sample_world default_args sample_state).2
  = images.
Proof.
  pose proof (images_never_change sample_render sample_repr sample_world default_args)
    as (Hinit & _ & _ & _ & _ & Hrun).
  split.
  - exact (Hinit sample_state eq_refl).
  - apply Hrun. vm_compute. reflexivity.
Defined.

(** ** The version *)

Lemma version_has_no_release_slash (s : string) :
  ¬ contains (py_replace "release/" "release-" s) "release/".
Proof.
  unfold contains, py_replace. rewrite chars_text.
  change (chars "release-") with (chars "release" ++ ["-"%char]).
  apply replace_list_no_old.
  - done.
  - by exists ["/"%char].
  - simpl. lia.
  - intros Hin. repeat (apply elem_of_cons in Hin as [Hin|Hin]; [done|]).
    by apply elem_of_nil in Hin.
Qed.

Lemma version_of_release (x : string) :
  py_replace "release/" "release-" ("release/" +:+ x)
  = "release-" +:+ py_replace "release/" "release-" x.
Proof. unfold py_replace. by rewrite chars_app, replace_list_head. Qed.

Lemma version_unchanged (x : string) :
  ¬ contains x "release/" → py_replace "release/" "release-" x = x.
Proof.
  intros Hclean. unfold py_replace.
  rewrite replace_list_nonempty, replace_fuel_clean by done.
  apply String.string_of_list_ascii_of_string.
Qed.

Lemma repo_tag_has_no_release_slash v os arch :
  ¬ contains v "release/" → ¬ contains os "release/" → ¬ contains arch "release/" →
  ¬ contains (repo_tag_of "pihole" v os arch) "release/".
Proof.
  unfold contains, repo_tag_of. intros Hv Hos Harch Hin.
  rewrite !chars_app in Hin.
  assert (∀ c : ascii, c ∈ [":"%char; "_"%char] → c ∉ chars "release/") as Hsep.
  { intros c Hc Hin'. apply elem_of_cons in Hc as [->|Hc];
      [|apply elem_of_cons in Hc as [->|Hc]; [|by apply elem_of_nil in Hc]];
      repeat (apply elem_of_cons in Hin' as [Hin'|Hin']; [done|]);
      by apply elem_of_nil in Hin'. }
  change (chars ":") with [":"%char] in Hin.
  change (chars "_") with ["_"%char] in Hin.
  apply infix_of_split in Hin as [Hin|Hin]; [| |apply Hsep; set_solver].
  { apply infix_of_length in Hin. simpl in Hin. lia. }
  apply infix_of_split in Hin as [Hin|Hin]; [done| |apply Hsep; set_solver].
  apply infix_of_split in Hin as [Hin|Hin]; [done|done|apply Hsep; set_solver].
Qed.

(** C9. The name of the file of a record is [Dockerfile_] and its
    architecture, whatever its OS.  At the end of a generation the file of an
    architecture holds what the last selected record with that architecture
    rendered: a record behind another one with the same architecture
    replaces what that one wrote. *)
Theorem same_arch_same_file
    (render : string → pydict → string) (repr_args : Args → string)
    (w : world) (args : Args) (raw tpl : string) :
  version_file w = Some raw →
  template_file w = Some tpl →
  opt_no_generate args = false →
  ∃ s, program render repr_args w args = (Ok tt, Some s) ∧
    (∀ a, files s !! dockerfile_name a
          = rendering render tpl (g_version s) <$>
              last (filter (λ r, arch r.2 = a) (selected_records args images))) ∧
    (∀ pre r1 mid r2 post,
       selected_records args images = pre ++ r1 :: mid ++ r2 :: post →
       arch r1.2 = arch r2.2 →
       Forall (λ r, arch r.2 ≠ arch r2.2) post →
       files s !! dockerfile_name (arch r1.2)
       = Some (rendering render tpl (g_version s) r2)).
Proof.
  intros Hv Htpl Hgen.
  destruct (program_spec render repr_args w args raw Hv) as (s & _ & H).
  unfold gen_fails, generated in H. rewrite Hgen, Htpl in H. cbn [negb andb] in H.
  destruct H as (Hrun & Hver & Hfiles & _). exists s. split; [done|].
  assert (∀ a, files s !! dockerfile_name a
               = rendering render tpl (g_version s) <$>
                   last (filter (λ r, arch r.2 = a) (selected_records args images)))
    as Hlast.
  { intros a. rewrite Hfiles, Hver, written_lookup, lookup_empty.
    by destruct (last _). }
  split; [done|].
  intros pre r1 mid r2 post Hsel Harch Hpost.
  rewrite Hlast, Hsel, Harch.
  replace (pre ++ r1 :: mid ++ r2 :: post)
    with ((pre ++ r1 :: mid) ++ [r2] ++ post)
    by (by rewrite <- (assoc_L (++))).
  assert (filter (λ r : string * image, arch r.2 = arch r2.2) post = []) as Hnone.
  { clear -Hpost. induction Hpost as [|r post Hr _ IH]; [done|].
    by rewrite filter_cons, decide_False. }
  rewrite (filter_app _ (pre ++ r1 :: mid)), (filter_app _ [r2] post), Hnone, app_nil_r.
  rewrite (filter_cons _ r2), decide_True, filter_nil by done.
  by rewrite last_snoc.
Qed.

Lemma same_arch_same_file_witness :
  ∃ s, program sample_render sample_repr sample_world default_args = (Ok tt, Some s) ∧
    files s !! dockerfile_name "amd64"
    = Some (rendering sample_render "FROM" (g_version s) alpine_amd64).
Proof.
  destruct (same_arch_same_file sample_render sample_repr sample_world default_args
              _ _ eq_refl eq_refl eq_refl) as (s & Hrun & _ & Hover).
  exists s. split; [exact Hrun|].
  apply (Hover [] debian_amd64
               (drop 1 (selected_records default_args [("debian", snd <$> take 4 (records images))]))
               alpine_amd64
               (drop 5 (selected_records default_args images))).
  - vm_compute. reflexivity.
  - reflexivity.
  - repeat constructor. discriminate.
Defined.

(** C10. [__version__] is the content of [VERSION], stripped, with every
    [release/] replaced by [release-]: a content without [release/] is only
    stripped, and [release/X] becomes [release-] and what [X] becomes.  A run
    builds its image tags and its template data with it.  It holds no
    [release/], and neither does an image tag whose OS and architecture hold
    none. *)
Theorem version_is_stripped_and_rewritten
    (render : string → pydict → string) (repr_args : Args → string)
    (w : world) (args : Args) (raw : string) :
  version_file w = Some raw →
  gen_fails w args images = false →
  let v := py_replace "release/" "release-" (py_strip raw) in
  load_version w = Ok v ∧
  (∃ s, program render repr_args w args = (Ok tt, Some s) ∧ g_version s = v ∧
        files s = generated render w args v images ∅ ∧
        spawned s = planned v args) ∧
  (¬ contains (py_strip raw) "release/" → v = py_strip raw) ∧
  (∀ x, py_strip raw = "release/" +:+ x →
     v = "release-" +:+ py_replace "release/" "release-" x) ∧
  ¬ contains v "release/" ∧
  (∀ os arch, ¬ contains os "release/" → ¬ contains arch "release/" →
     ¬ contains (repo_tag_of "pihole" v os arch) "release/").
Proof.
  intros Hv Hgf v. split; [unfold load_version; by rewrite Hv|]. split.
  { destruct (program_spec render repr_args w args raw Hv) as (s & _ & H).
    rewrite Hgf in H. by exists s. }
  split; [apply version_unchanged|]. split.
  { intros x Hx. unfold v. rewrite Hx. apply version_of_release. }
  split; [apply version_has_no_release_slash|].
  intros os arch. apply repo_tag_has_no_release_slash, version_has_no_release_slash.
Qed.

Lemma version_is_stripped_and_rewritten_witness :
  let v := py_replace "release/" "release-" (py_strip ("release/v4.0" +:+ nl)) in
  load_version sample_world = Ok v ∧
  (∃ s, program sample_render sample_repr sample_world default_args
        = (Ok tt, Some s) ∧ g_version s = v ∧
        files s = generated sample_render sample_world default_args v images ∅ ∧
        spawned s = planned v default_args) ∧
  v = "release-" +:+ py_replace "release/" "release-" "v4.0" ∧
  ¬ contains v "release/" ∧
  ¬ contains (repo_tag_of "pihole" v "debian" "amd64") "release/".
Proof.
  pose proof (version_is_stripped_and_rewritten sample_render sample_repr sample_world
                default_args _ eq_refl eq_refl) as (Hload & Hrun & _ & Hrel & Hver & Htag).
  split; [exact Hload|]. split; [exact Hrun|].
  split; [exact (Hrel "v4.0" eq_refl)|]. split; [exact Hver|].
  apply Htag; intros Hin%infix_of_length; simpl in Hin; lia.
Defined.

(** ** More about the generation *)

(** A loop keeps what every pass keeps, whether a pass raises or not. *)
Lemma for_invariant {A} (R : state → state → Prop) (l : list A) (f : A → M unit) :
  (∀ s, R s s) →
  (∀ s1 s2 s3, R s1 s2 → R s2 s3 → R s1 s3) →
  (∀ x s, R s (f x s).2) →
  ∀ s, R s (for_ l f s).2.
Proof.
  intros Hrefl Htrans Hf. induction l as [|x l IH]; intros s; [apply Hrefl|].
  simpl. rewrite bind_unfold. pose proof (Hf x s) as Hx.
  destruct (f x s) as [[[]|e] s1]; simpl in *; [|done].
  eapply Htrans; [exact Hx | apply IH].
Qed.

(** Passes that do nothing can be left out. *)
Lemma for_skip {A} (P : A → Prop) `{!∀ x, Decision (P x)}
    (l : list A) (f : A → M unit) s :
  (∀ x s, ¬ P x → f x s = (Ok tt, s)) →
  for_ l f s = for_ (filter P l) f s.
Proof.
  intros Hskip. revert s. induction l as [|x l IH]; intros s; [done|].
  rewrite filter_cons. destruct (decide (P x)) as [Hx|Hx].
  - simpl. rewrite !bind_unfold. destruct (f x s) as [[[]|e] s1]; [apply IH | done].
  - simpl. erewrite bind_ok by by apply Hskip. apply IH.
Qed.

Lemma generate_one_unselected render w args (r : string * image) s :
  selected args r ≠ true → generate_one render w args r.1 r.2 s = (Ok tt, s).
Proof.
  unfold generate_one, selected. intros Hsel.
  destruct (bool_decide (r.1 ∈ opt_os args)); [|done].
  destruct (bool_decide (arch r.2 ∈ opt_arch args)); [by destruct Hsel | done].
Qed.

Lemma generate_one_unknown render w args (r : string * image) s :
  selected args r = true → dict_get os_base_vars r.1 = None →
  generate_one render w args r.1 r.2 s = (Raise (KeyError r.1), s).
Proof.
  unfold generate_one, selected. intros [Hos Harch]%andb_true_iff Hnone.
  rewrite Hos, Harch. cbn [negb]. erewrite bind_ok by reflexivity.
  unfold subscript. by rewrite Hnone.
Qed.

(** The generation, when it is not skipped, is the loop over the selected
    records. *)
Lemma generate_dockerfiles_selected render w args s :
  opt_no_generate args = false →
  generate_dockerfiles render w args s
  = for_ (selected_records args (g_images s))
         (λ r, generate_one render w args r.1 r.2) s.
Proof.
  intros Hgen. unfold generate_dockerfiles. rewrite Hgen.
  erewrite bind_ok by reflexivity. rewrite generate_loops.
  apply (for_skip (λ r, selected args r = true)).
  intros r s'. apply generate_one_unselected.
Qed.

(** X1. When no record is selected, a generation that is not skipped
    returns normally and leaves the state as it is: it does not look for the
    template.  That is the case when no OS of [--os] is in the table. *)
Theorem nothing_selected_nothing_generated
    (render : string → pydict → string) (w : world) (args : Args) (s : state) :
  opt_no_generate args = false →
  (selected_records args (g_images s) = [] →
   generate_dockerfiles render w args s = (Ok tt, s)) ∧
  ((∀ os, os ∈ opt_os args → os ∉ (g_images s).*1) →
   selected_records args (g_images s) = []).
Proof.
  intros Hgen. split.
  - intros Hnone. by rewrite generate_dockerfiles_selected, Hnone.
  - intros Hout. unfold selected_records.
    destruct (filter _ _) as [|[os img] l] eqn:Hf; [done|]. exfalso.
    assert ((os, img) ∈ filter (λ r, selected args r = true) (records (g_images s)))
      as [Hsel Hin]%list_elem_of_filter by (rewrite Hf; left).
    apply selected_spec in Hsel as [Hos _]. apply (Hout os Hos).
    unfold records in Hin. apply list_elem_of_bind in Hin as ([os' archs] & Hin & Htbl).
    apply list_elem_of_fmap in Hin as (img' & [= -> ->] & _).
    apply list_elem_of_fmap. by exists (os', archs).
Qed.

Lemma nothing_selected_witness :
  generate_dockerfiles sample_render no_template_world fedora_args sample_state
  = (Ok tt, sample_state).
Proof.
  destruct (nothing_selected_nothing_generated sample_render no_template_world
              fedora_args sample_state eq_refl) as [Hnone Hout].
  apply Hnone, Hout. intros os Hos Hin.
  apply list_elem_of_singleton in Hos as ->.
  vm_compute in Hin. repeat (apply elem_of_cons in Hin as [Hin|Hin]; [done|]).
  by apply elem_of_nil in Hin.
Defined.

(** X2. [os_base_vars[os]] is evaluated before the template is looked for:
    when a selected record has an OS without an entry in [os_base_vars], the
    generation raises [KeyError] for that OS, after writing the files of the
    selected records before it; when it is the first selected record, the
    generation raises whether the template exists or not and nothing is
    written. *)
Theorem unknown_os_raises_key_error
    (render : string → pydict → string) (w : world) (args : Args) (s : state)
    (pre post : list (string * image)) (r : string * image) :
  opt_no_generate args = false →
  selected_records args (g_images s) = pre ++ r :: post →
  dict_get os_base_vars r.1 = None →
  (∀ tpl, template_file w = Some tpl →
     Forall (λ r : string * image, is_Some (dict_get os_base_vars r.1)) pre →
     generate_dockerfiles render w args s
     = (Raise (KeyError r.1),
        set_files (written render tpl (g_version s) pre (files s)) s)) ∧
  (pre = [] → generate_dockerfiles render w args s = (Raise (KeyError r.1), s)).
Proof.
  intros Hgen Hsel Hnone.
  assert (Forall (λ r, selected args r = true) (pre ++ r :: post)) as Hall.
  { rewrite <- Hsel. apply Forall_forall. intros x Hx.
    by apply list_elem_of_filter in Hx as [? _]. }
  apply Forall_app in Hall as [Hpre Hr]. apply Forall_cons in Hr as [Hr _].
  rewrite generate_dockerfiles_selected, Hsel by done. split.
  - intros tpl Htpl Hknown. rewrite for_app, bind_unfold.
    rewrite (generate_records_ok render w args tpl pre s Htpl Hknown).
    assert (filter (λ r, selected args r = true) pre = pre) as ->.
    { clear -Hpre. induction Hpre as [|x pre Hx _ IH]; [done|].
      by rewrite filter_cons, decide_True, IH. }
    simpl. rewrite bind_unfold. by rewrite generate_one_unknown.
  - intros ->. simpl. rewrite bind_unfold. by rewrite generate_one_unknown.
Qed.

Lemma unknown_os_witness :
  generate_dockerfiles sample_render sample_world ubuntu_args ubuntu_state
  = (Raise (KeyError "ubuntu"),
     set_files (written sample_render "FROM" "v1"
                  [("debian",
                    {| base := "pihole/debian-base:latest"; arch := "amd64";
                       s6arch := "amd64" |})] ∅) ubuntu_state).
Proof.
  refine (proj1 (unknown_os_raises_key_error sample_render sample_world ubuntu_args
                   ubuntu_state [_] []
                   ("ubuntu", {| base := "ubuntu:bionic"; arch := "amd64";
                                 s6arch := EmptyString |})
                   eq_refl _ eq_refl) "FROM" eq_refl _).
  - vm_compute. reflexivity.
  - repeat constructor. by eexists.
Defined.

(** X3. Whatever the table and whether it raises or not, a generation
    changes no file but those named after an architecture of [--arch], removes
    no file, starts no process, leaves [__version__] alone and, unless it is
    skipped, prints nothing. *)
Theorem generation_touches_only_arch_files
    (render : string → pydict → string) (w : world) (args : Args) (s : state) :
  let s' := (generate_dockerfiles render w args s).2 in
  (∀ name, name ∉ dockerfile_name <$> opt_arch args →
     files s' !! name = files s !! name) ∧
  dom (files s) ⊆ dom (files s') ∧
  spawned s' = spawned s ∧
  g_version s' = g_version s ∧
  (opt_no_generate args = false → console s' = console s).
Proof.
  destruct (opt_no_generate args) eqn:Hgen.
  { rewrite generate_dockerfiles_skipped by done. simpl. by repeat split. }
  rewrite generate_dockerfiles_selected by done. cbv zeta.
  pose (R := λ s1 s2 : state,
          (∀ name, name ∉ dockerfile_name <$> opt_arch args →
             files s2 !! name = files s1 !! name) ∧
          dom (files s1) ⊆ dom (files s2) ∧
          spawned s2 = spawned s1 ∧ g_version s2 = g_version s1 ∧
          console s2 = console s1).
  assert (R s (for_ (selected_records args (g_images s))
                    (λ r, generate_one render w args r.1 r.2) s).2) as HR.
  { apply for_invariant.
    - intros s1. by repeat split.
    - intros s1 s2 s3 (Hf1 & Hd1 & Hp1 & Hv1 & Hc1) (Hf2 & Hd2 & Hp2 & Hv2 & Hc2).
      repeat split; [|by etrans|congruence..].
      intros name Hname. by rewrite Hf2, Hf1.
    - intros [os img] s1. unfold R. cbn [fst snd].
      destruct (selected args (os, img)) eqn:Hsel.
      + destruct (dict_get os_base_vars os) as [vars|] eqn:Hvars.
        * destruct (template_file w) as [tpl|] eqn:Htpl.
          -- rewrite (generate_one_ok render w args tpl) by (done || by eexists).
             unfold gen_step. rewrite Hsel. cbn [snd fst set_files files spawned
               g_version console].
             repeat split.
             ++ intros name Hname. apply lookup_insert_ne. intros <-.
                apply Hname, list_elem_of_fmap. eexists. split; [done|].
                by apply selected_spec in Hsel as [_ ?].
             ++ rewrite dom_insert_L. set_solver.
          -- rewrite generate_one_missing by (done || by eexists).
             rewrite Hsel. by repeat split.
        * rewrite (generate_one_unknown render w args (os, img)) by done.
          by repeat split.
      + rewrite (generate_one_unselected render w args (os, img))
          by by rewrite Hsel.
        by repeat split. }
  destruct HR as (Hf & Hd & Hp & Hv & Hc). by repeat split.
Qed.

Lemma generation_touches_witness :
  console (generate_dockerfiles sample_render sample_world default_args
             sample_state).2
  = console sample_state.
Proof.
  exact (proj2 (proj2 (proj2 (proj2
           (generation_touches_only_arch_files sample_render sample_world
              default_args sample_state)))) eq_refl).
Defined.

(** ** Splitting command lines *)

Section split.
Context {A : Type} (sp : A → bool).

Lemma split_go_word cur w s :
  Forall (λ c, sp c = false) w →
  split_go sp cur (w ++ s) = split_go sp (reverse w ++ cur) s.
Proof.
  revert cur. induction w as [|c w IH]; intros cur Hw; [done|].
  apply Forall_cons in Hw as [Hc Hw]. simpl. rewrite Hc, IH by done.
  by rewrite reverse_cons, <- (assoc_L (++)).
Qed.

Lemma split_go_flush (w : list A) :
  match reverse w with [] => [] | _ :: _ => [reverse (reverse w)] end
  = filter (λ w, w ≠ []) [w].
Proof.
  rewrite reverse_involutive. destruct w as [|c w]; [done|].
  rewrite reverse_cons. destruct (reverse w); by rewrite filter_cons, decide_True.
Qed.

Lemma split_go_sep cur c s :
  sp c = true →
  split_go sp cur (c :: s)
  = match cur with [] => [] | _ :: _ => [reverse cur] end ++ split_go sp [] s.
Proof. intros Hc. simpl. rewrite Hc. by destruct cur. Qed.

(** Words without blanks, joined by one blank and split again, are the
    words that are not empty. *)
Lemma split_join_list c (ws : list (list A)) :
  sp c = true →
  Forall (Forall (λ c, sp c = false)) ws →
  split_list sp (join_list [c] ws) = filter (λ w, w ≠ []) ws.
Proof.
  intros Hc Hws. unfold split_list.
  induction Hws as [|w ws Hw Hws IH]; [done|].
  cbn [join_list]. rewrite split_go_word, app_nil_r by done.
  rewrite (filter_app _ [w] ws : filter _ (w :: ws) = _), <- split_go_flush.
  destruct ws as [|w' ws'].
  - rewrite filter_nil, app_nil_r. simpl. done.
  - change ([c] ++ ?l) with (c :: l). rewrite split_go_sep by done. by rewrite IH.
Qed.
End split.

Lemma no_space_app (a b : string) : no_space a → no_space b → no_space (a +:+ b).
Proof. unfold no_space. rewrite chars_app. apply Forall_app_2. Qed.

Lemma text_chars (s : string) : text (chars s) = s.
Proof. apply String.string_of_list_ascii_of_string. Qed.

Lemma nonempty_words (ws : list string) :
  text <$> filter (λ w : list ascii, w ≠ []) (chars <$> ws)
  = filter (λ w, w ≠ EmptyString) ws.
Proof.
  induction ws as [|w ws IH]; [done|].
  rewrite fmap_cons, !filter_cons. destruct w as [|c w].
  - by rewrite !decide_False by (by intros []).
  - rewrite !decide_True by done. rewrite fmap_cons, IH. f_equal.
    apply (text_chars (String c w)).
Qed.

(** X5. [' '.join(words).split()] gives back the words, without the empty
    ones, when no word holds a blank. *)
Theorem split_join (ws : list string) :
  Forall no_space ws →
  py_split (py_join " " ws) = filter (λ w, w ≠ EmptyString) ws.
Proof.
  intros Hws. unfold py_split, py_join. rewrite chars_text.
  change (chars " ") with [" "%char].
  rewrite split_join_list; [apply nonempty_words | done |].
  by apply Forall_fmap.
Qed.

Lemma split_join_witness :
  py_split (py_join " " ["docker"; "build"; EmptyString; "--pull"; "."])
  = filter (λ w, w ≠ EmptyString) ["docker"; "build"; EmptyString; "--pull"; "."].
Proof.
  apply split_join. repeat constructor.
Defined.

Lemma build_command_joined v args (p : string * string) :
  build_command_of (time_of args) (no_cache_of args)
    ("pihole" +:+ "/" +:+ repo_tag_of "pihole" v p.1 p.2) (dockerfile_name p.2)
    (repo_tag_of "pihole" v p.1 p.2)
  = py_join " "
      ((if opt_t args then ["time"] else [])
       ++ ["docker"; "build"; no_cache_of args; "--pull";
           "--cache-from=" +:+ dquote +:+ "pihole/" +:+ repo_tag_of "pihole" v p.1 p.2
             +:+ "," +:+ repo_tag_of "pihole" v p.1 p.2 +:+ dquote;
           "-f"; dockerfile_name p.2; "-t"; repo_tag_of "pihole" v p.1 p.2; "."]).
Proof.
  rewrite <- (text_chars (build_command_of _ _ _ _ _)).
  unfold py_join. f_equal.
  unfold build_command_of, time_of, no_cache_of, repo_tag_of, dockerfile_name, dquote.
  destruct (opt_t args), (opt_no_cache args);
    cbn [app fmap list_fmap join_list]; rewrite !chars_app; simpl;
    repeat (progress (rewrite <- ?(assoc_L (++)); simpl));
    rewrite ?app_nil_r; reflexivity.
Qed.

Lemma hub_tag_command_joined v args (p : string * string) :
  hub_tag_command_of (time_of args) (repo_tag_of "pihole" v p.1 p.2) (hub_tag_str args)
  = py_join " "
      ((if opt_t args then ["time"] else [])
       ++ ["docker"; "tag"; repo_tag_of "pihole" v p.1 p.2; hub_tag_str args]).
Proof.
  rewrite <- (text_chars (hub_tag_command_of _ _ _)).
  unfold py_join. f_equal.
  unfold hub_tag_command_of, time_of, repo_tag_of.
  destruct (opt_t args);
    cbn [app fmap list_fmap join_list]; rewrite !chars_app; simpl;
    repeat (progress (rewrite <- ?(assoc_L (++)); simpl));
    rewrite ?app_nil_r; reflexivity.
Qed.

Lemma no_space_repo_tag v os arch :
  no_space v → no_space os → no_space arch →
  no_space (repo_tag_of "pihole" v os arch).
Proof.
  intros Hv Hos Harch. unfold repo_tag_of.
  repeat (apply no_space_app; [first [done | by repeat constructor]|]). done.
Qed.

Lemma build_argv_words v args (p : string * string) :
  no_space v → no_space p.1 → no_space p.2 →
  build_argv v args p = build_words v args p.
Proof.
  intros Hv Hos Harch. pose proof (no_space_repo_tag v p.1 p.2 Hv Hos Harch) as Htag.
  unfold build_argv. rewrite build_command_joined, split_join.
  - unfold build_words, no_cache_of.
    destruct (opt_t args), (opt_no_cache args); cbn [app];
      repeat first
        [ rewrite filter_nil
        | rewrite filter_cons, decide_True
            by (unfold dockerfile_name, repo_tag_of; simpl; discriminate)
        | rewrite filter_cons, decide_False by (by intros []) ];
      reflexivity.
  - apply Forall_app. split; [destruct (opt_t args); repeat constructor|].
    unfold no_cache_of, dockerfile_name. destruct (opt_no_cache args);
      repeat (apply Forall_cons_2;
              [first [ done
                     | by repeat constructor
                     | repeat (apply no_space_app;
                               [first [done | by repeat constructor]|]);
                       first [done | by repeat constructor] ]|]);
      by apply Forall_nil.
Qed.

Lemma tag_argv_words v args (p : string * string) t :
  opt_hub_tag args = Some t → t ≠ EmptyString → no_space t →
  no_space v → no_space p.1 → no_space p.2 →
  tag_argv v args p = tag_words v args p.
Proof.
  intros Ht Hne Hnt Hv Hos Harch.
  pose proof (no_space_repo_tag v p.1 p.2 Hv Hos Harch) as Htag.
  assert (hub_tag_str args = t) as Hstr by (unfold hub_tag_str; by rewrite Ht).
  unfold tag_argv. rewrite hub_tag_command_joined, split_join.
  - unfold tag_words. rewrite Hstr.
    destruct (opt_t args); cbn [app];
      repeat first
        [ rewrite filter_nil
        | rewrite filter_cons, decide_True
            by (done || (unfold repo_tag_of; simpl; discriminate)) ];
      reflexivity.
  - rewrite Hstr. apply Forall_app. split; [destruct (opt_t args); repeat constructor|].
    repeat (apply Forall_cons_2; [first [done | by repeat constructor]|]).
    by apply Forall_nil.
Qed.

(** X6. When [__version__], the OS, the architecture and the hub tag hold
    no blank, one call of [build] returns normally after starting the
    process [docker build] with exactly these arguments, behind [time] with
    [-t] and with [--no-cache] when asked for, and then, when there is a hub
    tag, the process [docker tag] with the image tag and the hub tag.  The
    quotes of [--cache-from] are part of the argument, since no shell reads
    the command. *)
Theorem build_starts_these_words (w : world) (os arch : string) (args : Args)
    (s : state) :
  no_space (g_version s) → no_space os → no_space arch →
  (∀ t, opt_hub_tag args = Some t → no_space t) →
  ∃ s', build w "pihole" os arch args s = (Ok tt, s') ∧
        spawned s'
        = spawned s
          ++ build_words (g_version s) args (os, arch)
             :: (if hub_tag_truthy args
                 then [tag_words (g_version s) args (os, arch)] else []).
Proof.
  intros Hv Hos Harch Hhub.
  destruct (does_build (g_version s) w os arch args s eq_refl)
    as (s' & Hrun & _ & _ & _ & Hsp & _).
  exists s'. split; [done|]. rewrite Hsp. unfold commands_of.
  rewrite build_argv_words by done. f_equal. f_equal.
  unfold hub_tag_truthy. destruct (opt_hub_tag args) as [t|] eqn:Ht; [|done].
  destruct (truthy t) eqn:Htruthy; [|done].
  rewrite (tag_argv_words (g_version s) args (os, arch) t);
    [done | exact Ht | by destruct t | by apply Hhub | done..].
Qed.

Lemma build_starts_these_words_witness :
  ∃ s', build sample_world "pihole" "debian" "amd64" hub_tag_args sample_state
        = (Ok tt, s') ∧
        spawned s'
        = spawned sample_state
          ++ build_words (g_version sample_state) hub_tag_args ("debian", "amd64")
             :: (if hub_tag_truthy hub_tag_args
                 then [tag_words (g_version sample_state) hub_tag_args
                         ("debian", "amd64")]
                 else []).
Proof.
  apply build_starts_these_words; try (repeat constructor).
  intros t [= <-]. repeat constructor.
Defined.

(** ** More about the build *)

Lemma length_commands v args (ps : list (string * string)) :
  length (ps ≫= commands_of v args)
  = length ps * (if hub_tag_truthy args then 2 else 1).
Proof.
  induction ps as [|p ps IH]; [done|].
  rewrite bind_cons, length_app, IH. unfold commands_of.
  destruct (hub_tag_truthy args); simpl; lia.
Qed.

(** X7. A build phase that is not skipped starts its processes pair by
    pair, the pairs in the order of the [--os] list and, within an OS, of the
    [--arch] list: the build of a pair, directly followed by its tag when
    there is a hub tag.  That is one process for each pair, or two. *)
Theorem build_then_tag_pair_by_pair (w : world) (args : Args) (s : state) :
  opt_no_build args = false →
  ∃ s', build_dockerfiles w args s = (Ok tt, s') ∧
    spawned s'
    = spawned s
      ++ (list_prod (opt_os args) (opt_arch args) ≫= λ p,
            build_argv (g_version s) args p
            :: if hub_tag_truthy args then [tag_argv (g_version s) args p] else []) ∧
    length (spawned s')
    = length (spawned s)
      + length (opt_os args) * length (opt_arch args)
        * (if hub_tag_truthy args then 2 else 1).
Proof.
  intros Hbuild.
  destruct (does_build_dockerfiles (g_version s) w args s eq_refl)
    as (s' & Hrun & _ & _ & _ & Hsp & _).
  exists s'. split; [done|]. unfold planned in Hsp. rewrite Hbuild in Hsp.
  split; [done|].
  by rewrite Hsp, length_app, length_commands, length_prod.
Qed.

Lemma build_then_tag_witness :
  ∃ s', build_dockerfiles sample_world hub_tag_args sample_state = (Ok tt, s') ∧
    spawned s'
    = spawned sample_state
      ++ (list_prod (opt_os hub_tag_args) (opt_arch hub_tag_args) ≫= λ p,
            build_argv (g_version sample_state) hub_tag_args p
            :: if hub_tag_truthy hub_tag_args
               then [tag_argv (g_version sample_state) hub_tag_args p] else []) ∧
    length (spawned s')
    = length (spawned sample_state)
      + length (opt_os hub_tag_args) * length (opt_arch hub_tag_args)
        * (if hub_tag_truthy hub_tag_args then 2 else 1).
Proof.
  exact (build_then_tag_pair_by_pair sample_world hub_tag_args sample_state eq_refl).
Defined.

Lemma py_split_time cmd : py_split ("time " +:+ cmd) = "time" :: py_split cmd.
Proof. reflexivity. Qed.

Lemma py_split_docker cmd : py_split ("docker " +:+ cmd) = "docker" :: py_split cmd.
Proof. reflexivity. Qed.

Lemma build_argv_time v args (p : string * string) :
  build_argv v args p
  = (if opt_t args then ["time"] else []) ++ build_argv v (set_t false args) p.
Proof.
  unfold build_argv, build_command_of, time_of, no_cache_of.
  cbn [set_t opt_t opt_no_cache].
  generalize ("docker build " +:+ (if opt_no_cache args then "--no-cache" else EmptyString)
              +:+ " --pull --cache-from=" +:+ dquote
              +:+ ("pihole" +:+ "/" +:+ repo_tag_of "pihole" v p.1 p.2) +:+ ","
              +:+ repo_tag_of "pihole" v p.1 p.2 +:+ dquote +:+ " -f "
              +:+ dockerfile_name p.2 +:+ " -t " +:+ repo_tag_of "pihole" v p.1 p.2
              +:+ " .").
  intros cmd. destruct (opt_t args); [apply py_split_time | reflexivity].
Qed.

Lemma tag_argv_time v args (p : string * string) :
  tag_argv v args p
  = (if opt_t args then ["time"] else []) ++ tag_argv v (set_t false args) p.
Proof.
  unfold tag_argv, hub_tag_command_of, time_of, hub_tag_str.
  cbn [set_t opt_t opt_hub_tag].
  generalize ("docker tag " +:+ repo_tag_of "pihole" v p.1 p.2 +:+ " "
              +:+ default "None" (opt_hub_tag args)).
  intros cmd. destruct (opt_t args); [apply py_split_time | reflexivity].
Qed.

Lemma build_argv_docker v args (p : string * string) :
  opt_t args = false → ∃ rest, build_argv v args p = "docker" :: rest.
Proof.
  intros Ht. unfold build_argv, build_command_of, time_of. rewrite Ht.
  eexists. apply (py_split_docker (_ +:+ _)).
Qed.

Lemma tag_argv_docker v args (p : string * string) :
  opt_t args = false → ∃ rest, tag_argv v args p = "docker" :: rest.
Proof.
  intros Ht. unfold tag_argv, hub_tag_command_of, time_of. rewrite Ht.
  eexists. apply (py_split_docker (_ +:+ _)).
Qed.

Lemma behind_time_prefix (argv : list string) b :
  (∃ rest, argv = "docker" :: rest) →
  behind_time ((if b : bool then ["time"] else []) ++ argv) = argv.
Proof. intros [rest ->]. by destruct b. Qed.

(** X8. The flag [-t] changes a command line only by putting [time] before
    it: without that word the arguments are those of the run without [-t]. *)
Theorem time_flag_only_prefixes (v : string) (args : Args) (p : string * string) :
  behind_time (build_argv v args p) = build_argv v (set_t false args) p ∧
  behind_time (tag_argv v args p) = tag_argv v (set_t false args) p ∧
  (opt_t args = true →
   build_argv v args p = "time" :: build_argv v (set_t false args) p ∧
   tag_argv v args p = "time" :: tag_argv v (set_t false args) p).
Proof.
  split; [|split].
  - rewrite build_argv_time. by apply behind_time_prefix, build_argv_docker.
  - rewrite tag_argv_time. by apply behind_time_prefix, tag_argv_docker.
  - intros Ht. rewrite build_argv_time, tag_argv_time, Ht. done.
Qed.

Lemma time_flag_witness :
  build_argv "v1" hub_tag_args ("debian", "amd64")
  = "time" :: build_argv "v1" (set_t false hub_tag_args) ("debian", "amd64") ∧
  tag_argv "v1" hub_tag_args ("debian", "amd64")
  = "time" :: tag_argv "v1" (set_t false hub_tag_args) ("debian", "amd64").
Proof.
  exact (proj2 (proj2 (time_flag_only_prefixes "v1" hub_tag_args ("debian", "amd64")))
           eq_refl).
Defined.

(** ** The data of a template *)

Lemma dict_get_set k v (d : pydict) k' :
  dict_get (dict_set k v d) k' = if decide (k' = k) then Some v else dict_get d k'.
Proof.
  induction d as [|[k0 v0] d IH]; simpl.
  - by destruct (decide (k' = k)).
  - destruct (decide (k = k0)) as [->|Hne]; simpl.
    + by destruct (decide (k' = k0)).
    + rewrite IH. destruct (decide (k' = k0)) as [->|]; [|done].
      by rewrite decide_False.
Qed.

Lemma py_dict_snoc items k v : py_dict (items ++ [(k, v)]) = dict_set k v (py_dict items).
Proof. unfold py_dict. by rewrite foldl_app. Qed.

(** In [dict(items)] the last item of a key gives its value. *)
Lemma dict_get_py_dict items k :
  dict_get (py_dict items) k = snd <$> last (filter (λ kv, kv.1 = k) items).
Proof.
  induction items as [|[k0 v0] items IH] using rev_ind; [done|].
  rewrite py_dict_snoc, dict_get_set, filter_app.
  rewrite (filter_cons _ (k0, v0) []), filter_nil. simpl.
  destruct (decide (k = k0)) as [->|Hne].
  - by rewrite decide_True, last_snoc.
  - rewrite decide_False, app_nil_r by done. apply IH.
Qed.

(** In a list of items without a doubled key the first and the last item of
    a key are the same. *)
Lemma dict_get_last (d : list (string * string)) k :
  NoDup d.*1 → snd <$> last (filter (λ kv, kv.1 = k) d) = dict_get d k.
Proof.
  induction d as [|[k0 v0] d IH]; [done|].
  intros [Hnotin Hnd]%NoDup_cons. rewrite filter_cons. simpl.
  destruct (decide (k0 = k)) as [->|Hne].
  - rewrite decide_True by done.
    assert (filter (λ kv : string * string, kv.1 = k) d = []) as ->; [|done].
    clear -Hnotin. induction d as [|[k1 v1] d IH]; [done|].
    apply not_elem_of_cons in Hnotin as [Hne Hnotin].
    rewrite filter_cons, decide_False, IH by done. done.
  - rewrite decide_False by done. by apply IH.
Qed.

Lemma keys_dict_set k v (d : list (string * string)) :
  (dict_set k v d).*1 = if decide (k ∈ d.*1) then d.*1 else d.*1 ++ [k].
Proof.
  induction d as [|[k0 v0] d IH].
  - destruct (decide (k ∈ ([] : list (string * string)).*1)) as [Hin|_]; [|done].
    by apply elem_of_nil in Hin.
  - cbn [dict_set]. destruct (decide (k = k0)) as [->|Hne].
    + rewrite decide_True; [done|]. rewrite fmap_cons. left.
    + rewrite !fmap_cons, IH. cbn [fst].
      destruct (decide (k ∈ d.*1)) as [Hin|Hnotin].
      * rewrite decide_True; [done|]. by right.
      * rewrite decide_False; [done|]. by intros [?|?]%elem_of_cons.
Qed.

(** The keys of [dict(items)] are all different. *)
Lemma NoDup_py_dict items : NoDup (py_dict items).*1.
Proof.
  induction items as [|[k v] items IH] using rev_ind; [constructor|].
  rewrite py_dict_snoc, keys_dict_set. destruct (decide _); [done|].
  apply NoDup_app. split; [done|]. split; [|apply NoDup_singleton].
  intros x Hx ->%list_elem_of_singleton. done.
Qed.

(** Closes [x ∉ l] and [NoDup l] for a list of different literals. *)
Ltac not_among :=
  let Hin := fresh "Hin" in
  intros Hin; repeat (apply elem_of_cons in Hin as [Hin|Hin]; [done|]);
  by apply elem_of_nil in Hin.
Ltac all_different :=
  repeat (apply NoDup_cons_2; [not_among|]); apply NoDup_nil_2.

Lemma merged_items v os os_vars img :
  [("version", v)] ++ [("os", os)] ++ base_vars ++ os_vars ++ image_items img
  ++ [("s6arch", s6arch_of img)]
  = (("version", v) :: ("os", os) :: base_vars) ++ os_vars
    ++ [("base", base img); ("arch", arch img); ("s6arch", s6arch img);
        ("s6arch", s6arch_of img)].
Proof. reflexivity. Qed.

(** X11. In the data passed to the template the items of the record win
    over everything else: [base] and [arch] are the record's, and [s6arch]
    is its [s6arch], or its [arch] when that is empty.  Every other key has
    its value from the variables of the OS, or else from [version], [os] and
    [base_vars].  No key occurs twice. *)
Theorem template_data_precedence (v os : string) (os_vars : pydict) (img : image) :
  NoDup os_vars.*1 →
  let m := merged_data_of v os os_vars img in
  dict_get m "s6arch" = Some (s6arch_of img) ∧
  dict_get m "arch" = Some (arch img) ∧
  dict_get m "base" = Some (base img) ∧
  (∀ k, k ∉ image_keys →
     dict_get m k
     = match dict_get os_vars k with
       | Some x => Some x
       | None => dict_get (("version", v) :: ("os", os) :: base_vars) k
       end) ∧
  NoDup m.*1.
Proof.
  intros Hnd m. unfold m, merged_data_of. fold (s6arch_of img).
  rewrite merged_items.
  split; [|split; [|split; [|split]]].
  - rewrite dict_get_py_dict, !filter_app, (assoc_L (++)), last_app. done.
  - rewrite dict_get_py_dict, !filter_app, (assoc_L (++)), last_app. done.
  - rewrite dict_get_py_dict, !filter_app, (assoc_L (++)), last_app. done.
  - intros k Hk. rewrite dict_get_py_dict, !filter_app, (assoc_L (++)), last_app.
    assert (filter (λ kv : string * string, kv.1 = k)
              [("base", base img); ("arch", arch img); ("s6arch", s6arch img);
               ("s6arch", s6arch_of img)] = []) as ->.
    { assert (k ≠ "base" ∧ k ≠ "arch" ∧ k ≠ "s6arch") as (Hb & Ha & Hs).
      { unfold image_keys in Hk. repeat split; intros ->; apply Hk;
          [left | right; left | right; right; left]. }
      do 4 (rewrite (filter_cons (λ kv : string * string, kv.1 = k));
            rewrite decide_False by (simpl; congruence)).
      done. }
    cbn [last]. rewrite last_app.
    rewrite <- (dict_get_last os_vars k Hnd).
    rewrite <- (dict_get_last (("version", v) :: ("os", os) :: base_vars) k).
    + by case_match.
    + cbn. all_different.
  - apply NoDup_py_dict.
Qed.

Lemma template_data_witness :
  let m := merged_data_of "v1" "alpine"
             (default [] (dict_get os_base_vars "alpine"))
             {| base := "x"; arch := "arm"; s6arch := EmptyString |} in
  dict_get m "s6arch" = Some "arm" ∧
  dict_get m "php_error_log" = Some "/var/log/nginx/error.log" ∧
  dict_get m "version" = Some "v1".
Proof.
  destruct (template_data_precedence "v1" "alpine"
              (default [] (dict_get os_base_vars "alpine"))
              {| base := "x"; arch := "arm"; s6arch := EmptyString |})
    as (Hs6 & _ & _ & Hother & _).
  { cbn. all_different. }
  split; [exact Hs6|]. split.
  - rewrite Hother; [reflexivity | not_among].
  - rewrite Hother; [reflexivity | not_among].
Defined.

(** ** Stripping *)

Section strip.
Context {A : Type} (sp : A → bool).

Lemma lstrip_blank l x :
  Forall (λ c, sp c = true) l → lstrip_list sp (l ++ x) = lstrip_list sp x.
Proof.
  induction 1 as [|c l Hc _ IH]; [done|]. simpl. by rewrite Hc.
Qed.

Lemma lstrip_all_blank l : Forall (λ c, sp c = true) l → lstrip_list sp l = [].
Proof. intros Hl. rewrite <- (app_nil_r l). by rewrite lstrip_blank. Qed.

Lemma lstrip_head c x : sp c = false → lstrip_list sp (c :: x) = c :: x.
Proof. intros Hc. simpl. by rewrite Hc. Qed.

(** A text without blanks between two runs of blanks is what [strip]
    leaves of them. *)
Lemma strip_surrounded l w r :
  Forall (λ c, sp c = true) l → Forall (λ c, sp c = true) r →
  Forall (λ c, sp c = false) w →
  strip_list sp (l ++ w ++ r) = w.
Proof.
  intros Hl Hr Hw. unfold strip_list, rstrip_list. rewrite lstrip_blank by done.
  destruct w as [|c w].
  - rewrite app_nil_l, (lstrip_all_blank r) by done. reflexivity.
  - apply Forall_cons in Hw as Hcw. destruct Hcw as [Hc _].
    rewrite <- app_comm_cons, lstrip_head by done.
    rewrite app_comm_cons, reverse_app, lstrip_blank by by apply Forall_reverse.
    apply Forall_reverse in Hw.
    destruct (reverse (c :: w)) as [|c' w'] eqn:Hrev.
    + apply (f_equal reverse) in Hrev. by rewrite reverse_involutive in Hrev.
    + apply Forall_cons in Hw as [Hc' _]. rewrite lstrip_head by done.
      by rewrite <- Hrev, reverse_involutive.
Qed.
End strip.

Lemma replace_fuel_Forall {A} `{!EqDecision A} (P : A → Prop) n (old new s : list A) :
  Forall P new → Forall P s → Forall P (replace_fuel n old new s).
Proof.
  intros Hnew. revert s. induction n as [|n IH]; intros s Hs; [done|].
  destruct s as [|c s]; [done|]. cbn [replace_fuel]. destruct (bool_decide _).
  - apply Forall_app. split; [done|]. by apply IH, Forall_drop.
  - apply Forall_cons in Hs as [Hc Hs]. apply Forall_cons. split; [done|]. by apply IH.
Qed.

Lemma py_strip_surrounded (l word r : string) :
  blank l → blank r → no_space word → py_strip (l +:+ word +:+ r) = word.
Proof.
  intros Hl Hr Hw. unfold py_strip. rewrite !chars_app, strip_surrounded by done.
  apply text_chars.
Qed.

Lemma no_space_version (word : string) :
  no_space word → no_space (py_replace "release/" "release-" word).
Proof.
  intros Hw. unfold no_space, py_replace. rewrite chars_text.
  rewrite replace_list_nonempty by done. apply replace_fuel_Forall; [|done].
  repeat constructor.
Qed.

(** X12. When [VERSION] holds one word, with any blanks or line ends before
    and behind it, [__version__] is that word with [release/] replaced, and
    it holds no blank.  A file of blanks only gives the empty version. *)
Theorem version_of_a_word (w : world) (l word r : string) :
  version_file w = Some (l +:+ word +:+ r) →
  blank l → blank r → no_space word →
  load_version w = Ok (py_replace "release/" "release-" word) ∧
  no_space (py_replace "release/" "release-" word) ∧
  (word = EmptyString → load_version w = Ok EmptyString).
Proof.
  intros Hv Hl Hr Hw. unfold load_version. rewrite Hv.
  rewrite py_strip_surrounded by done. split; [done|].
  split; [by apply no_space_version|]. by intros ->.
Qed.

Lemma version_of_a_word_witness :
  load_version sample_world = Ok (py_replace "release/" "release-" "release/v4.0") ∧
  no_space (py_replace "release/" "release-" "release/v4.0").
Proof.
  assert (blank EmptyString) as Hl by constructor.
  assert (blank nl) as Hr by repeat constructor.
  assert (no_space "release/v4.0") as Hw by repeat constructor.
  destruct (version_of_a_word sample_world EmptyString "release/v4.0" nl
              eq_refl Hl Hr Hw) as (Hload & Hns & _).
  exact (conj Hload Hns).
Defined.

Lemma Forall_pairs (P : string → Prop) (l1 l2 : list string) :
  Forall P l1 → Forall P l2 →
  Forall (λ p : string * string, P p.1 ∧ P p.2) (list_prod l1 l2).
Proof.
  intros H1 H2. apply Forall_forall. intros [x y] Hin.
  apply list_elem_of_In, in_prod_iff in Hin as [Hx Hy].
  split.
  - by apply (proj1 (Forall_forall _ _) H1), list_elem_of_In.
  - by apply (proj1 (Forall_forall _ _) H2), list_elem_of_In.
Qed.

(** X13. A run whose [VERSION] holds one word and whose OS names,
    architectures and hub tag hold no blank, and which builds, starts these
    processes and no others: for each pair of the [--os] and [--arch] lists
    the words of [docker build], then those of [docker tag] when there is a
    hub tag, all with the image tag [pihole:<version>_<os>_<arch>]. *)
Theorem run_starts_these_words
    (render : string → pydict → string) (repr_args : Args → string)
    (w : world) (args : Args) (l word r : string) :
  version_file w = Some (l +:+ word +:+ r) →
  blank l → blank r → no_space word →
  gen_fails w args images = false →
  opt_no_build args = false →
  Forall no_space (opt_os args) → Forall no_space (opt_arch args) →
  (∀ t, opt_hub_tag args = Some t → no_space t) →
  let v := py_replace "release/" "release-" word in
  ∃ s, program render repr_args w args = (Ok tt, Some s) ∧
    spawned s
    = list_prod (opt_os args) (opt_arch args) ≫= λ p,
        build_words v args p
        :: if hub_tag_truthy args then [tag_words v args p] else [].
Proof.
  intros Hv Hl Hr Hw Hgf Hbuild Hos Harch Hhub v.
  destruct (program_spec render repr_args w args _ Hv) as (s & _ & H).
  rewrite Hgf in H. destruct H as (Hrun & _ & _ & Hsp).
  exists s. split; [done|]. rewrite Hsp, py_strip_surrounded by done.
  unfold planned. rewrite Hbuild. fold v.
  pose proof (no_space_version word Hw) as Hnv. fold v in Hnv.
  pose proof (Forall_pairs no_space _ _ Hos Harch) as Hpairs.
  induction Hpairs as [|p ps [Hp1 Hp2] _ IH]; [done|].
  rewrite !bind_cons, IH. f_equal. unfold commands_of.
  rewrite build_argv_words by done. f_equal.
  unfold hub_tag_truthy. destruct (opt_hub_tag args) as [t|] eqn:Ht; [|done].
  destruct (truthy t) eqn:Htruthy; [|done].
  rewrite (tag_argv_words v args p t);
    [done | exact Ht | by destruct t | by apply Hhub | done..].
Qed.

Lemma run_starts_these_words_witness :
  let v := py_replace "release/" "release-" "release/v4.0" in
  ∃ s, program sample_render sample_repr sample_world hub_tag_args = (Ok tt, Some s) ∧
    spawned s
    = list_prod (opt_os hub_tag_args) (opt_arch hub_tag_args) ≫= λ p,
        build_words v hub_tag_args p
        :: if hub_tag_truthy hub_tag_args then [tag_words v hub_tag_args p] else [].
Proof.
  apply (run_starts_these_words sample_render sample_repr sample_world hub_tag_args
           EmptyString "release/v4.0" nl); try (repeat constructor).
  intros t [= <-]. repeat constructor.
Defined.

(** ** Runs on a host *)

Lemma bind_on_unfold {A B} (m : HM A) (k : A → HM B) s :
  (m ≫= k) s = match m s with
               | (Done a, s') => k a s'
               | (Halt h, s') => (Halt h, s')
               end.
Proof. done. Qed.

Lemma bind_done {A B} (m : HM A) (k : A → HM B) s a s' :
  m s = (Done a, s') → (m ≫= k) s = k a s'.
Proof. rewrite bind_on_unfold. by intros ->. Qed.

Lemma bind_halt {A B} (m : HM A) (k : A → HM B) s h s' :
  m s = (Halt h, s') → (m ≫= k) s = (Halt h, s').
Proof. rewrite bind_on_unfold. by intros ->. Qed.

Lemma refines_lift {A} (m : M A) : refines (lift m) m.
Proof. done. Qed.

Lemma refines_ret {A} (a : A) : refines (mret a) (mret a).
Proof. done. Qed.

Lemma refines_bind {A B} (m' : HM A) (m : M A) (k' : A → HM B) (k : A → M B) :
  refines m' m → (∀ a, refines (k' a) (k a)) → refines (m' ≫= k') (m ≫= k).
Proof.
  intros Hm Hk s. rewrite bind_on_unfold, Hm. unfold lift.
  rewrite bind_unfold.
  destruct (m s) as [[a|e] s1]; simpl; [apply Hk | done].
Qed.

Lemma refines_for {A} (l : list A) (f' : A → HM unit) (f : A → M unit) :
  (∀ x, refines (f' x) (f x)) → refines (for_on l f') (for_ l f).
Proof.
  intros Hf. induction l as [|x l IH]; [done|].
  simpl. apply refines_bind; [apply Hf | by intros _].
Qed.

Lemma for_on_halt {A} (x : A) (l : list A) (f : A → HM unit) s h s' :
  f x s = (Halt h, s') → for_on (x :: l) f s = (Halt h, s').
Proof. intros Hx. simpl. by erewrite bind_halt. Qed.

Section on_a_host.
Variables (j : jinja2) (repr_args : Args → string) (h : host) (args : Args).

Lemma get_template_on_refines name :
  renders j h → refines (get_template_on j h name) (get_template (host_world h) name).
Proof.
  intros Hj s. unfold get_template_on, get_template, lift.
  destruct (template_file (host_world h)) as [tpl|] eqn:Htpl; [|done].
  destruct (Hj tpl Htpl) as [-> _]. done.
Qed.

Lemma generate_one_on_refines os img :
  renders j h →
  refines (generate_one_on j h args os img)
          (generate_one (render_of j) (host_world h) args os img).
Proof.
  intros Hj. unfold generate_one_on, generate_one.
  destruct (negb _); [done|]. destruct (negb _); [done|].
  apply refines_bind; [done|]. intros version.
  apply refines_bind; [done|]. intros os_vars.
  intros s. cbv zeta. unfold lift. rewrite bind_on_unfold, bind_unfold.
  unfold get_template_on, get_template.
  destruct (template_file (host_world h)) as [tpl|] eqn:Htpl; [|done].
  destruct (Hj tpl Htpl) as [-> Hr].
  destruct (Hr (merged_data_of version os os_vars img)) as [c Hc].
  cbn [mret M_ret]. unfold write_file, render_on, render_of.
  rewrite !bind_on_unfold. cbn [fst snd]. rewrite Hc. cbn [to_outcome fst snd].
  unfold set_files. cbn [g_version g_images files console spawned].
  by rewrite insert_insert_eq.
Qed.

Lemma generate_dockerfiles_on_refines :
  renders j h →
  refines (generate_dockerfiles_on j h args)
          (generate_dockerfiles (render_of j) (host_world h) args).
Proof.
  intros Hj. unfold generate_dockerfiles_on, generate_dockerfiles.
  destruct (opt_no_generate args); [done|].
  apply refines_bind; [done|]. intros tbl.
  apply refines_for. intros [os archs]. apply refines_for. intros img.
  by apply generate_one_on_refines.
Qed.
End on_a_host.

Lemma run_and_stream_command_output_on_spec h command args s :
  run_and_stream_command_output_on h command args s
  = let s1 := set_console (console s ++ ["Running " +:+ command +:+ nl]) s in
    match py_split command with
    | [] => (Halt (Uncaught IndexError), s1)
    | program :: _ =>
        if on_path h program
        then if negb (opt_v args)
                && overflows h (length (spawned s)) (py_split command)
             then (Halt Blocked, set_spawned (spawned s ++ [py_split command]) s1)
             else lift (run_and_stream_command_output (host_world h) command args) s
        else (Halt (Uncaught (FileNotFoundError program)), s1)
    end.
Proof.
  unfold lift. rewrite run_and_stream_command_output_spec.
  unfold run_and_stream_command_output_on, run_output.
  rewrite bind_on_unfold. cbn [lift print write_stdout fst snd to_outcome].
  rewrite bind_on_unfold. unfold Popen.
  destruct (py_split command) as [|program rest] eqn:Hargv; [done|].
  cbn [spawned set_console].
  destruct (on_path h program); [|done].
  set (r := popen (host_world h) (length (spawned s)) (program :: rest)).
  rewrite bind_on_unfold. unfold wait.
  destruct (opt_v args); cbn [negb andb].
  - unfold lift. rewrite for_write_stdout. cbn [fst snd to_outcome].
    rewrite bind_on_unfold.
    destruct (bool_decide _); unfold lift, print, write_stdout;
      rewrite ?bind_unfold; unfold mret, HM_ret, set_console, set_spawned;
      cbn [g_version g_images files console spawned fst snd to_outcome];
      do 2 f_equal; rewrite <- ?(assoc_L (++)); simpl; by rewrite ?app_nil_r.
  - unfold mret at 1, HM_ret at 1. rewrite bind_on_unfold.
    cbn [spawned set_spawned set_console length].
    destruct (overflows h _ _); [done|].
    destruct (bool_decide _); unfold lift, print, write_stdout;
      rewrite ?bind_unfold; unfold mret, HM_ret, set_console, set_spawned;
      cbn [g_version g_images files console spawned fst snd to_outcome];
      do 2 f_equal; rewrite <- ?(assoc_L (++)); simpl; by rewrite ?app_nil_r.
Qed.

Lemma build_command_tool args no_cache cache dockerfile create_tag :
  ∃ rest,
    py_split (build_command_of (if opt_t args then "time " else EmptyString)
                no_cache cache dockerfile create_tag)
    = tool_of args :: rest.
Proof.
  unfold build_command_of, tool_of. destruct (opt_t args); eexists.
  - apply py_split_time.
  - apply (py_split_docker (_ +:+ _)).
Qed.

Lemma hub_tag_command_tool args create_tag hub_tag :
  ∃ rest,
    py_split (hub_tag_command_of (if opt_t args then "time " else EmptyString)
                create_tag hub_tag)
    = tool_of args :: rest.
Proof.
  unfold hub_tag_command_of, tool_of. destruct (opt_t args); eexists.
  - apply py_split_time.
  - apply (py_split_docker (_ +:+ _)).
Qed.

Section building_on_a_host.
Variables (h : host) (args : Args).

Lemma run_on_refines command program rest :
  py_split command = program :: rest →
  on_path h program = true →
  read_or_fits h args →
  refines (run_and_stream_command_output_on h command args)
          (run_and_stream_command_output (host_world h) command args).
Proof.
  intros Hargv Hpath Hfits s.
  rewrite run_and_stream_command_output_on_spec. cbv zeta.
  rewrite Hargv, Hpath.
  destruct Hfits as [-> | ->]; [done|]. by rewrite andb_false_r.
Qed.

Lemma run_on_missing command program rest s :
  py_split command = program :: rest →
  on_path h program = false →
  run_and_stream_command_output_on h command args s
  = (Halt (Uncaught (FileNotFoundError program)),
     set_console (console s ++ ["Running " +:+ command +:+ nl]) s).
Proof.
  intros Hargv Hpath.
  rewrite run_and_stream_command_output_on_spec. cbv zeta.
  by rewrite Hargv, Hpath.
Qed.

Lemma build_on_refines docker_repo os arch :
  on_path h (tool_of args) = true →
  read_or_fits h args →
  refines (build_on h docker_repo os arch args)
          (build (host_world h) docker_repo os arch args).
Proof.
  intros Hpath Hfits. unfold build_on, build. cbv zeta.
  apply refines_bind; [done|]. intros version.
  apply refines_bind; [done|]. intros _.
  apply refines_bind; [done|]. intros _.
  apply refines_bind.
  { destruct (build_command_tool args (if opt_no_cache args then "--no-cache" else EmptyString)
                ("pihole" +:+ "/" +:+ repo_tag_of docker_repo version os arch)
                (dockerfile_name arch) (repo_tag_of docker_repo version os arch))
      as [rest Hargv].
    by eapply run_on_refines. }
  intros _. apply refines_bind. { by destruct (opt_v args). }
  intros _. destruct (hub_tag_truthy args); [|done].
  apply refines_bind; [done|]. intros _.
  destruct (hub_tag_command_tool args (repo_tag_of docker_repo version os arch)
              (hub_tag_str args)) as [rest Hargv].
  by eapply run_on_refines.
Qed.

Lemma build_dockerfiles_on_refines :
  on_path h (tool_of args) = true →
  read_or_fits h args →
  refines (build_dockerfiles_on h args) (build_dockerfiles (host_world h) args).
Proof.
  intros Hpath Hfits. unfold build_dockerfiles_on, build_dockerfiles.
  destruct (opt_no_build args); [done|].
  apply refines_for. intros os. apply refines_for. intros arch.
  by apply build_on_refines.
Qed.

(** Without its program the first build of the phase raises from [Popen],
    behind three lines of text. *)
Lemma build_on_missing_tool docker_repo os arch s :
  on_path h (tool_of args) = false →
  ∃ s', build_on h docker_repo os arch args s
        = (Halt (Uncaught (FileNotFoundError (tool_of args))), s') ∧
        ran [] s s'.
Proof.
  intros Hpath. unfold build_on. cbv zeta.
  erewrite bind_done by reflexivity.
  erewrite bind_done by reflexivity.
  erewrite bind_done by reflexivity.
  destruct (build_command_tool args (if opt_no_cache args then "--no-cache" else EmptyString)
              ("pihole" +:+ "/" +:+ repo_tag_of docker_repo (g_version s) os arch)
              (dockerfile_name arch) (repo_tag_of docker_repo (g_version s) os arch))
    as [rest Hargv].
  eexists. split.
  { erewrite bind_halt; [reflexivity|]. by eapply run_on_missing. }
  unfold ran. cbn [lift print write_stdout fst snd set_console g_version g_images
                   files spawned console].
  rewrite app_nil_r. repeat split.
  rewrite <- !(assoc_L (++)). by apply prefix_app_r.
Qed.

Lemma build_dockerfiles_on_missing_tool s :
  opt_no_build args = false →
  opt_os args ≠ [] → opt_arch args ≠ [] →
  on_path h (tool_of args) = false →
  ∃ s', build_dockerfiles_on h args s
        = (Halt (Uncaught (FileNotFoundError (tool_of args))), s') ∧
        ran [] s s'.
Proof.
  intros Hbuild Hos Harch Hpath. unfold build_dockerfiles_on. rewrite Hbuild.
  destruct (opt_os args) as [|os oss]; [done|].
  destruct (opt_arch args) as [|arch archs]; [done|].
  destruct (build_on_missing_tool "pihole" os arch s Hpath) as (s' & Hrun & Hran).
  exists s'. split; [|done].
  by do 2 apply for_on_halt.
Qed.
End building_on_a_host.

Lemma generate_dockerfiles_spec render w args s :
  known_os (g_images s) →
  ∃ s', g_version s' = g_version s ∧ g_images s' = g_images s ∧
    spawned s' = spawned s ∧ console s `prefix_of` console s' ∧
    if gen_fails w args (g_images s)
    then generate_dockerfiles render w args s
         = (Raise (TemplateNotFound "Dockerfile.template"), s') ∧
         files s' = files s
    else generate_dockerfiles render w args s = (Ok tt, s') ∧
         files s' = generated render w args (g_version s) (g_images s) (files s).
Proof.
  intros Hos. unfold gen_fails, generated.
  destruct (opt_no_generate args) eqn:Hgen; cbn [negb andb].
  - rewrite generate_dockerfiles_skipped by done.
    exists (set_console (console s ++ [" ::: Skipping Dockerfile generation" +:+ nl]) s).
    repeat split. by apply prefix_app_r.
  - destruct (template_file w) as [tpl|] eqn:Htpl; cbn [andb].
    + rewrite (generate_dockerfiles_ok render w args tpl) by done.
      eexists. split; [|split; [|split; [|split; [|split; [reflexivity|]]]]]; done.
    + rewrite generate_dockerfiles_missing by done.
      exists s. by destruct (existsb _ _).
Qed.

Section running_on_a_host.
Variables (j : jinja2) (repr_args : Args → string) (h : host) (args : Args).

Lemma main_on_refines :
  renders j h →
  on_path h (tool_of args) = true →
  read_or_fits h args →
  refines (main_on j repr_args h args)
          (main (render_of j) repr_args (host_world h) args).
Proof.
  intros Hj Hpath Hfits. unfold main_on, main.
  apply refines_bind. { by destruct (opt_v args). } intros _.
  apply refines_bind; [by apply generate_dockerfiles_on_refines|]. intros _.
  by apply build_dockerfiles_on_refines.
Qed.

Lemma program_on_refines :
  renders j h →
  on_path h (tool_of args) = true →
  read_or_fits h args →
  program_on j repr_args h args
  = (to_outcome (program (render_of j) repr_args (host_world h) args).1,
     (program (render_of j) repr_args (host_world h) args).2).
Proof.
  intros Hj Hpath Hfits. unfold program_on, program.
  destruct (module_init (host_world h)) as [s0|e]; [|done].
  rewrite (main_on_refines Hj Hpath Hfits s0). unfold lift.
  by destruct (main _ _ _ _ s0).
Qed.

(** [main] on a host up to its build phase. *)
Lemma main_on_spec s :
  renders j h →
  main_on j repr_args h args s
  = match generate_dockerfiles (render_of j) (host_world h) args
            (if opt_v args
             then set_console (console s ++ [repr_args args +:+ nl]) s else s) with
    | (Ok _, s2) => build_dockerfiles_on h args s2
    | (Raise e, s2) => (Halt (Uncaught e), s2)
    end.
Proof.
  intros Hj. unfold main_on. rewrite bind_on_unfold.
  assert ((if opt_v args then lift (print (repr_args args)) else mret tt) s
          = (Done tt, if opt_v args
                      then set_console (console s ++ [repr_args args +:+ nl]) s
                      else s)) as ->.
  { by destruct (opt_v args). }
  rewrite bind_on_unfold, (generate_dockerfiles_on_refines j h args Hj). unfold lift.
  by destruct (generate_dockerfiles _ _ _ _) as [[[]|e] s2].
Qed.

Lemma program_on_no_version :
  version_file (host_world h) = None →
  program_on j repr_args h args = (Halt (Uncaught (FileNotFoundError "VERSION")), None).
Proof. intros Hv. unfold program_on, module_init, load_version. by rewrite Hv. Qed.

Lemma program_on_no_template raw :
  version_file (host_world h) = Some raw →
  gen_fails (host_world h) args images = true →
  ∃ s, program_on j repr_args h args
       = (Halt (Uncaught (TemplateNotFound "Dockerfile.template")), Some s) ∧
       files s = ∅ ∧ spawned s = [].
Proof.
  intros Hv Hgf. unfold program_on, module_init, load_version. rewrite Hv.
  set (s0 := {| g_version := _ |}).
  assert (renders j h) as Hj.
  { intros tpl Htpl. unfold gen_fails in Hgf. rewrite Htpl in Hgf.
    by rewrite andb_false_r in Hgf. }
  rewrite (main_on_spec s0 Hj).
  set (s1 := if opt_v args then _ else s0).
  destruct (generate_dockerfiles_spec (render_of j) (host_world h) args s1)
    as (s2 & _ & _ & Hsp & _ & H).
  { unfold s1. destruct (opt_v args); apply known_os_images. }
  assert (g_images s1 = images) as Hi by (unfold s1; by destruct (opt_v args)).
  rewrite Hi, Hgf in H. destruct H as [-> Hf].
  exists s2. split; [done|]. rewrite Hf, Hsp. unfold s1. by destruct (opt_v args).
Qed.

Lemma program_on_missing_tool raw :
  version_file (host_world h) = Some raw →
  gen_fails (host_world h) args images = false →
  renders j h →
  opt_no_build args = false →
  opt_os args ≠ [] → opt_arch args ≠ [] →
  on_path h (tool_of args) = false →
  ∃ s, program_on j repr_args h args
       = (Halt (Uncaught (FileNotFoundError (tool_of args))), Some s) ∧
       spawned s = [] ∧
       files s = generated (render_of j) (host_world h) args
                   (py_replace "release/" "release-" (py_strip raw)) images ∅.
Proof.
  intros Hv Hgf Hj Hbuild Hos Harch Hpath.
  unfold program_on, module_init, load_version. rewrite Hv.
  set (s0 := {| g_version := _ |}).
  rewrite (main_on_spec s0 Hj).
  set (s1 := if opt_v args then _ else s0).
  assert (g_images s1 = images) as Hi by (unfold s1; by destruct (opt_v args)).
  destruct (generate_dockerfiles_spec (render_of j) (host_world h) args s1)
    as (s2 & _ & _ & Hsp & _ & H).
  { rewrite Hi. apply known_os_images. }
  rewrite Hi, Hgf in H. destruct H as [-> Hf].
  destruct (build_dockerfiles_on_missing_tool h args s2 Hbuild Hos Harch Hpath)
    as (s3 & -> & _ & _ & Hf3 & Hsp3 & _).
  exists s3. split; [done|]. rewrite Hsp3, Hf3, Hf, Hsp, app_nil_r.
  unfold s1. by destruct (opt_v args).
Qed.
End running_on_a_host.

Lemma renders_sample_jinja h : renders sample_jinja h.
Proof. intros tpl _. split; [done|]. intros d. by eexists. Qed.

(** C6, as stated, fails: on a host without [docker], with [VERSION] and
    the template in place, the script run without options ends with the
    [FileNotFoundError] that [Popen] raises for the first build.  No process
    has been started, so none has ended with a status other than 0: the
    failure is none of the three that the specification names. *)
Lemma a_missing_tool_is_a_fourth_failure :
  (program_on sample_jinja sample_repr bare_host default_args).1
  = Halt (Uncaught (FileNotFoundError "docker")) ∧
  ¬ named_failure bare_host
      (program_on sample_jinja sample_repr bare_host default_args).2.
Proof.
  split; [by vm_compute|].
  intros [Hv | [Ht | (s & n & argv & _ & _ & Hrc)]]; [done | done | by apply Hrc].
Qed.

(** C6, amended.  The failures of a run include the three that the
    specification names and a fourth: a program that [Popen] does not find.
    A missing [VERSION], a missing template that the generation needs, and a
    missing program each end the run with an uncaught exception, which the
    interpreter reports; the first two before any file is written or any
    process started, the last before any process is started.  A status other
    than 0 is reported by the two error lines and the call returns normally
    after starting its process once.  When none of the exceptions is raised
    and the output of the processes is read or fits its pipe, the run ends
    normally after starting the planned processes, each once, whatever their
    statuses: nothing is retried. *)
Theorem named_failures_and_a_missing_tool
    (j : jinja2) (repr_args : Args → string) (h : host) (args : Args) :
  (version_file (host_world h) = None →
   program_on j repr_args h args
   = (Halt (Uncaught (FileNotFoundError "VERSION")), None)) ∧
  (∀ raw, version_file (host_world h) = Some raw →
     gen_fails (host_world h) args images = true →
     template_file (host_world h) = None ∧
     ∃ s, program_on j repr_args h args
          = (Halt (Uncaught (TemplateNotFound "Dockerfile.template")), Some s) ∧
          files s = ∅ ∧ spawned s = []) ∧
  (∀ raw, version_file (host_world h) = Some raw →
     gen_fails (host_world h) args images = false → renders j h →
     opt_no_build args = false → opt_os args ≠ [] → opt_arch args ≠ [] →
     on_path h (tool_of args) = false →
     ∃ s, program_on j repr_args h args
          = (Halt (Uncaught (FileNotFoundError (tool_of args))), Some s) ∧
          spawned s = []) ∧
  (∀ command program rest s,
     py_split command = program :: rest → on_path h program = true →
     read_or_fits h args →
     returncode (popen (host_world h) (length (spawned s)) (py_split command)) ≠ 0%Z →
     ∃ s' out, run_and_stream_command_output_on h command args s = (Done tt, s') ∧
       spawned s' = spawned s ++ [py_split command] ∧
       console s' = console s ++ out
                    ++ ["     ::: Error running" +:+ nl; "None" +:+ nl]) ∧
  (∀ raw, version_file (host_world h) = Some raw →
     gen_fails (host_world h) args images = false → renders j h →
     on_path h (tool_of args) = true → read_or_fits h args →
     ∃ s, program_on j repr_args h args = (Done tt, Some s) ∧
          spawned s = planned (py_replace "release/" "release-" (py_strip raw)) args).
Proof.
  split; [apply program_on_no_version|]. split; [|split; [|split]].
  - intros raw Hv Hgf. split.
    { unfold gen_fails in Hgf. destruct (template_file (host_world h)); [|done].
      by rewrite andb_false_r in Hgf. }
    by eapply program_on_no_template.
  - intros raw Hv Hgf Hj Hbuild Hos Harch Hpath.
    destruct (program_on_missing_tool j repr_args h args raw)
      as (s & Hrun & Hsp & _); try done.
    by exists s.
  - intros command program rest s Hargv Hpath Hfits Hrc.
    destruct (run_reports_failure (host_world h) command args s Hrc)
      as (s' & out & Hrun & Hsp & Hout).
    exists s', out. split; [|done].
    rewrite (run_on_refines h args command program rest Hargv Hpath Hfits s).
    unfold lift. by rewrite Hrun.
  - intros raw Hv Hgf Hj Hpath Hfits.
    rewrite program_on_refines by done.
    destruct (program_spec (render_of j) repr_args (host_world h) args raw Hv)
      as (s & _ & H).
    rewrite Hgf in H. destruct H as (-> & _ & _ & Hsp). by exists s.
Qed.

Lemma named_failures_witness :
  program_on sample_jinja sample_repr (full_host no_version_world) default_args
  = (Halt (Uncaught (FileNotFoundError "VERSION")), None) ∧
  (∃ s, program_on sample_jinja sample_repr (full_host no_template_world) default_args
        = (Halt (Uncaught (TemplateNotFound "Dockerfile.template")), Some s) ∧
        files s = ∅ ∧ spawned s = []) ∧
  (∃ s, program_on sample_jinja sample_repr bare_host default_args
        = (Halt (Uncaught (FileNotFoundError (tool_of default_args))), Some s) ∧
        spawned s = []) ∧
  (∃ s' out, run_and_stream_command_output_on (full_host sample_world)
               "docker tag a b" default_args sample_state = (Done tt, s') ∧
     spawned s' = spawned sample_state ++ [py_split "docker tag a b"] ∧
     console s' = console sample_state ++ out
                  ++ ["     ::: Error running" +:+ nl; "None" +:+ nl]) ∧
  (∃ s, program_on sample_jinja sample_repr (full_host sample_world) default_args
        = (Done tt, Some s) ∧
        spawned s = planned (py_replace "release/" "release-"
                               (py_strip ("release/v4.0" +:+ nl))) default_args).
Proof.
  split; [|split; [|split; [|split]]].
  - exact (proj1 (named_failures_and_a_missing_tool sample_jinja sample_repr
                    (full_host no_version_world) default_args) eq_refl).
  - exact (proj2 (proj1 (proj2 (named_failures_and_a_missing_tool sample_jinja
                                  sample_repr (full_host no_template_world)
                                  default_args)) _ eq_refl eq_refl)).
  - apply (proj1 (proj2 (proj2 (named_failures_and_a_missing_tool sample_jinja
                                  sample_repr bare_host default_args)))
             _ eq_refl eq_refl (renders_sample_jinja _) eq_refl);
      [discriminate | discriminate | reflexivity].
  - apply (proj1 (proj2 (proj2 (proj2 (named_failures_and_a_missing_tool sample_jinja
                                         sample_repr (full_host sample_world)
                                         default_args))))
             "docker tag a b" "docker" ["tag"; "a"; "b"] sample_state
             eq_refl eq_refl).
    + right. reflexivity.
    + discriminate.
  - apply (proj2 (proj2 (proj2 (proj2 (named_failures_and_a_missing_tool sample_jinja
                                         sample_repr (full_host sample_world)
                                         default_args))))
             _ eq_refl eq_refl (renders_sample_jinja _) eq_refl).
    right. reflexivity.
Defined.

(** ** More about runs on a host *)







(** ** What [-v] changes *)










Section verbosity.
Variables (j : jinja2) (h : host) (args : Args) (b : bool).
Hypothesis fits : ∀ n argv, overflows h n argv = false.






End verbosity.



(** ** What jinja2 can raise *)

Lemma for_on_ext {A} (l : list A) (f g : A → HM unit) s :
  (∀ x s, f x s = g x s) → for_on l f s = for_on l g s.
Proof.
  intros Hfg. revert s. induction l as [|x l IH]; intros s; [done|].
  simpl. rewrite !bind_on_unfold, Hfg.
  destruct (g x s) as [[[]|e] s']; [apply IH | done].
Qed.

Lemma for_on_app {A} (l1 l2 : list A) (f : A → HM unit) s :
  for_on (l1 ++ l2) f s = (for_on l1 f;; for_on l2 f) s.
Proof.
  revert s. induction l1 as [|x l1 IH]; intros s; [done|].
  simpl. rewrite !bind_on_unfold.
  destruct (f x s) as [[[]|e] s']; [apply IH | done].
Qed.

Lemma for_on_fmap {A B} (g : A → B) (l : list A) (f : B → HM unit) s :
  for_on (g <$> l) f s = for_on l (λ x, f (g x)) s.
Proof.
  revert s. induction l as [|x l IH]; intros s; [done|].
  simpl. rewrite !bind_on_unfold. destruct (f (g x) s) as [[[]|e] s']; [apply IH | done].
Qed.

Lemma for_on_bind {A B} (g : A → list B) (l : list A) (f : B → HM unit) s :
  for_on (l ≫= g) f s = for_on l (λ x, for_on (g x) f) s.
Proof.
  revert s. induction l as [|x l IH]; intros s; [done|].
  simpl. rewrite for_on_app, !bind_on_unfold.
  destruct (for_on (g x) f s) as [[[]|e] s']; [apply IH | done].
Qed.

(** A loop whose body does nothing for the elements outside [P] and stops
    at the first element of [P]. *)
Lemma for_on_first {A} (P : A → Prop) `{!∀ x, Decision (P x)}
    (l : list A) (f : A → HM unit) x rest s hh s' :
  filter P l = x :: rest →
  (∀ y, ¬ P y → f y s = (Done tt, s)) →
  f x s = (Halt hh, s') →
  for_on l f s = (Halt hh, s').
Proof.
  intros Hl Hskip Hx. induction l as [|y l IH]; [done|].
  rewrite filter_cons in Hl. destruct (decide (P y)) as [Hy|Hy].
  - injection Hl as -> _. by apply for_on_halt.
  - simpl. erewrite bind_done by by apply Hskip. by apply IH.
Qed.

Lemma generate_on_loops j h args tbl s :
  for_on tbl (λ '(os, archs), for_on archs (generate_one_on j h args os)) s
  = for_on (records tbl) (λ r, generate_one_on j h args r.1 r.2) s.
Proof.
  unfold records. rewrite for_on_bind. apply for_on_ext.
  intros [os archs] s'. by rewrite for_on_fmap.
Qed.

Lemma generate_one_on_unselected j h args (r : string * image) s :
  selected args r ≠ true → generate_one_on j h args r.1 r.2 s = (Done tt, s).
Proof.
  intros Hsel. unfold generate_one_on. unfold selected in Hsel.
  destruct (bool_decide (r.1 ∈ opt_os args)); [|done].
  by destruct (bool_decide (arch r.2 ∈ opt_arch args)).
Qed.

(** X15. jinja2 can fail in two more ways once the template is found.  A
    source that does not compile makes the generation raise
    [TemplateSyntaxError] at the first selected record, before anything is
    written.  An exception raised while that record is rendered ends the
    generation too, and leaves the record's file behind, empty: the file is
    opened for writing before [render] is called. *)
Theorem jinja2_failures_on_a_host
    (j : jinja2) (h : host) (args : Args) (s : state) (tpl : string)
    (r : string * image) (rest : list (string * image)) (os_vars : pydict) :
  opt_no_generate args = false →
  template_file (host_world h) = Some tpl →
  selected_records args (g_images s) = r :: rest →
  dict_get os_base_vars r.1 = Some os_vars →
  (compiles j tpl = false →
   generate_dockerfiles_on j h args s
   = (Halt (Uncaught (TemplateSyntaxError "Dockerfile.template")), s)) ∧
  (compiles j tpl = true →
   ∀ e, render_or_raise j tpl (merged_data_of (g_version s) r.1 os_vars r.2) = Raise e →
     generate_dockerfiles_on j h args s
     = (Halt (Uncaught e),
        set_files (<[dockerfile_name (arch r.2) := EmptyString]> (files s)) s)).
Proof.
  intros Hgen Htpl Hsel Hvars.
  assert (selected args r = true) as Hr.
  { assert (r ∈ selected_records args (g_images s)) as Hin by (rewrite Hsel; left).
    by apply list_elem_of_filter in Hin as [? _]. }
  assert (∀ hh s', generate_one_on j h args r.1 r.2 s = (Halt hh, s') →
                   generate_dockerfiles_on j h args s = (Halt hh, s')) as Hfirst.
  { intros hh s' Hone. unfold generate_dockerfiles_on. rewrite Hgen.
    erewrite bind_done by reflexivity. rewrite generate_on_loops.
    apply (for_on_first (λ r, selected args r = true) _ _ r rest); [done| |done].
    intros y Hy. by apply generate_one_on_unselected. }
  unfold selected in Hr. apply andb_true_iff in Hr as [Hos Harch].
  split.
  - intros Hc. apply Hfirst. unfold generate_one_on. rewrite Hos, Harch. cbn [negb].
    erewrite bind_done by reflexivity.
    erewrite bind_done by (unfold lift, subscript; by rewrite Hvars).
    cbv zeta. erewrite bind_halt; [reflexivity|].
    unfold get_template_on. by rewrite Htpl, Hc.
  - intros Hc e He. apply Hfirst. unfold generate_one_on. rewrite Hos, Harch. cbn [negb].
    erewrite bind_done by reflexivity.
    erewrite bind_done by (unfold lift, subscript; by rewrite Hvars).
    cbv zeta. erewrite bind_done by (unfold get_template_on; by rewrite Htpl, Hc).
    erewrite bind_done by reflexivity.
    erewrite bind_halt; [reflexivity|].
    unfold render_on. cbn [lift write_file fst snd get_version g_version set_files].
    by rewrite He.
Qed.

Lemma jinja2_failures_witness :
  generate_dockerfiles_on rejecting_jinja (full_host sample_world) default_args
    sample_state
  = (Halt (Uncaught (TemplateSyntaxError "Dockerfile.template")), sample_state) ∧
  generate_dockerfiles_on failing_jinja (full_host sample_world) default_args
    sample_state
  = (Halt (Uncaught (UndefinedError "pihole")),
     set_files (<["Dockerfile_amd64" := EmptyString]> (files sample_state))
       sample_state).
Proof.
  split.
  - exact (proj1 (jinja2_failures_on_a_host rejecting_jinja (full_host sample_world)
                    default_args sample_state "FROM" debian_amd64
                    (List.tl (selected_records default_args images))
                    _ eq_refl eq_refl eq_refl eq_refl) eq_refl).
  - exact (proj2 (jinja2_failures_on_a_host failing_jinja (full_host sample_world)
                    default_args sample_state "FROM" debian_amd64
                    (List.tl (selected_records default_args images))
                    _ eq_refl eq_refl eq_refl eq_refl) eq_refl _ eq_refl).
Defined.
